(** * SynologyPhotosAPI: the client library and its three scripts

    A shallow embedding of [SynologyPhotosLib.py], [scripts/AddTags.py],
    [scripts/UpdateApiInfo.py] and [scripts/UpdateTagsList.py].

    - Decoded JSON (what [response.json()] returns) is the inductive [json].
      Numbers are the integers; a non-integer JSON number has no
      counterpart here.
    - Python's dynamic operations ([d[k]], truthiness, iteration,
      [list.extend], [==] against a [str]) are total functions into [res],
      with the interpreter's exceptions as constructors of [exn].
    - The HTTP layer ([requests.get]) is the interface [Transport]: a
      server state and a function answering one request.  A mock of the
      HTTP layer is an instance of it.  An answer holds the decoded body
      as a value: [response.json()] decodes the text anew at each call,
      so the list that [get_items] extends in place is shared with no
      other answer.
    - The process is the record [proc]: server state, the log of requests
      sent, the two output streams, [os.environ], the [.env] file and the
      file system.  Library functions and scripts are state-and-exception
      computations [M].
    - [get_items] recurses on the server's answers, so it takes a fuel
      argument; [Fuel] is the outcome of a run that needed more. *)

From Stdlib Require Import ZArith List String Ascii Lia.
From stdpp Require Import base option list strings gmap.
Import ListNotations.

Set Warnings "-register-all".

Local Open Scope Z_scope.
Local Open Scope string_scope.
Local Open Scope list_scope.

(** ** Python values *)

Inductive json : Type :=
| JNull
| JBool (b : bool)
| JNum (n : Z)
| JStr (s : string)
| JList (xs : list json)
| JObj (kv : list (string * json)).

(** The pieces of an f-string: literal text and the [str()] of a value. *)
Inductive frag : Type :=
| Lit (s : string)
| Val (v : json).

Definition text := list frag.

(** [f"{v}"]: a [str] is inserted as it is. *)
Definition fmt (v : json) : frag :=
  match v with
  | JStr s => Lit s
  | _ => Val v
  end.

Inductive exn : Type :=
| SynologyPhotoError (msg : text)
| KeyError (key : string)
| TypeError
| AttributeError
| RequestException
| OSError
| SystemExit (code : Z).

Inductive res (A : Type) : Type :=
| Ok (a : A)
| Exn (e : exn)
| Fuel.
Arguments Ok {A} a.
Arguments Exn {A} e.
Arguments Fuel {A}.

Definition res_bind {A B} (r : res A) (k : A -> res B) : res B :=
  match r with
  | Ok a => k a
  | Exn e => Exn e
  | Fuel => Fuel
  end.

(** [bool(v)] *)
Definition truthy (v : json) : bool :=
  match v with
  | JNull => false
  | JBool b => b
  | JNum n => negb (Z.eqb n 0)
  | JStr s => negb (String.eqb s EmptyString)
  | JList xs => match xs with [] => false | _ => true end
  | JObj kv => match kv with [] => false | _ => true end
  end.

Fixpoint dict_get (kv : list (string * json)) (k : string) : option json :=
  match kv with
  | [] => None
  | (k', v) :: rest => if String.eqb k' k then Some v else dict_get rest k
  end.

(** [v[k]] for a string key [k] *)
Definition getitem (v : json) (k : string) : res json :=
  match v with
  | JObj kv =>
      match dict_get kv k with
      | Some x => Ok x
      | None => Exn (KeyError k)
      end
  | _ => Exn TypeError
  end.

Fixpoint chars (s : string) : list json :=
  match s with
  | EmptyString => []
  | String c rest => JStr (String c EmptyString) :: chars rest
  end.

(** [list(iter(v))]: what a [for] loop or [extend] walks through *)
Definition py_iter (v : json) : res (list json) :=
  match v with
  | JList xs => Ok xs
  | JObj kv => Ok (map (fun p => JStr (fst p)) kv)
  | JStr s => Ok (chars s)
  | _ => Exn TypeError
  end.

(** The attribute lookup [items.extend]: only a list has it. *)
Definition extend_attr (items : json) : res (list json) :=
  match items with
  | JList xs => Ok xs
  | _ => Exn AttributeError
  end.

(** [v == s] where [s] is a [str] *)
Definition eq_str (v : json) (s : string) : bool :=
  match v with
  | JStr s' => String.eqb s' s
  | _ => false
  end.

Fixpoint map_res {A B} (f : A -> res B) (xs : list A) : res (list B) :=
  match xs with
  | [] => Ok []
  | x :: rest =>
      res_bind (f x) (fun y =>
      res_bind (map_res f rest) (fun ys => Ok (y :: ys)))
  end.

(** ** The HTTP layer *)

(** A value of the [params] dictionary; [PDumps v] is the string
    [json.dumps(v)]. *)
Inductive pval : Type :=
| PVal (v : json)
| PDumps (v : json).

(** [urljoin(base, path)], kept symbolic; [base] is [None] when the
    environment variable is unset. *)
Inductive url : Type :=
| urljoin (base : option string) (path : string).

Record request : Type := Request {
  endpoint : url;
  params : list (string * pval)
}.

(** [body] is [None] when the text of the response is not JSON. *)
Record response : Type := Response {
  status_code : Z;
  body : option json
}.

Fixpoint param (ps : list (string * pval)) (k : string) : option pval :=
  match ps with
  | [] => None
  | (k', v) :: rest => if String.eqb k' k then Some v else param rest k
  end.

(** [requests.get]: the server answers or the transport fails (no
    connection, no URL scheme, ...), and its state moves on. *)
Class Transport : Type := {
  W : Type;
  http_get : request -> W -> option response * W
}.

(** ** The process *)

Inductive ofrag : Type :=
| OLit (s : string)
| OVal (v : json)
| OExn (e : exn).

Definition line := list ofrag.

Inductive content : Type :=
| Empty
| JsonDump (v : json) (indent : Z).

Section Process.
Context `{T : Transport}.

Record proc : Type := Proc {
  net : W;
  sent : list request;
  stdout : list line;
  stderr : list line;
  environ : gmap string string;
  dotenv : gmap string string;
  root_dir : string;
  dirs : gset string;
  files : gmap string content
}.

Definition M (A : Type) : Type := proc -> res A * proc.

Definition ret {A} (a : A) : M A := fun st => (Ok a, st).

Definition bind {A B} (c : M A) (k : A -> M B) : M B :=
  fun st =>
    match c st with
    | (Ok a, st') => k a st'
    | (Exn e, st') => (Exn e, st')
    | (Fuel, st') => (Fuel, st')
    end.

Definition raise {A} (e : exn) : M A := fun st => (Exn e, st).

Definition out_of_fuel {A} : M A := fun st => (Fuel, st).

Definition lift {A} (r : res A) : M A := fun st => (r, st).

(** [try: body except <catches> as e: handler e] *)
Definition try_except {A} (body : M A) (catches : exn -> bool)
    (handler : exn -> M A) : M A :=
  fun st =>
    match body st with
    | (Exn e, st') => if catches e then handler e st' else (Exn e, st')
    | other => other
    end.

End Process.

Declare Scope m_scope.
Delimit Scope m_scope with m.
Notation "x <- c ;; k" := (bind c (fun x => k))
  (at level 100, c at next level, right associativity) : m_scope.
Notation "c ;;; k" := (bind c (fun _ => k))
  (at level 100, right associativity) : m_scope.
Notation "v .[ k ]" := (lift (getitem v k))
  (at level 1, left associativity, format "v .[ k ]") : m_scope.
Local Open Scope m_scope.

Section Primitives.
Context `{T : Transport}.

Definition getenv (k : string) : M (option string) :=
  fun st => (Ok (environ st !! k), st).

Definition opt_str (o : option string) : json :=
  match o with
  | Some s => JStr s
  | None => JNull
  end.

(** The process once [r] has been sent and answered. *)
Definition after_request (st : proc) (r : request) : proc :=
  Proc (snd (http_get r (net st))) (sent st ++ [r]) (stdout st) (stderr st)
    (environ st) (dotenv st) (root_dir st) (dirs st) (files st).

Definition requests_get (endpoint : url) (params : list (string * pval))
    : M response :=
  fun st =>
    let r := Request endpoint params in
    match fst (http_get r (net st)) with
    | Some resp => (Ok resp, after_request st r)
    | None => (Exn RequestException, after_request st r)
    end.

(** [response.json()] *)
Definition response_json (resp : response) : M json :=
  match body resp with
  | Some v => ret v
  | None => raise RequestException
  end.

Definition print_out (l : line) : M unit :=
  fun st =>
    (Ok tt, Proc (net st) (sent st) (stdout st ++ [l]) (stderr st)
              (environ st) (dotenv st) (root_dir st) (dirs st) (files st)).

Definition print_err (l : line) : M unit :=
  fun st =>
    (Ok tt, Proc (net st) (sent st) (stdout st) (stderr st ++ [l])
              (environ st) (dotenv st) (root_dir st) (dirs st) (files st)).

Definition sys_exit {A} (code : Z) : M A := raise (SystemExit code).

Definition load_dotenv : M unit :=
  fun st =>
    (Ok tt, Proc (net st) (sent st) (stdout st) (stderr st)
              (environ st ∪ dotenv st) (dotenv st) (root_dir st) (dirs st)
              (files st)).

(** [os.path.dirname(os.path.dirname(os.path.abspath(__file__)))] *)
Definition script_root : M string :=
  fun st => (Ok (root_dir st), st).

(** [os.makedirs(p, exist_ok=True)]: refused when [p] is a file. *)
Definition makedirs (p : string) : M unit :=
  fun st =>
    match files st !! p with
    | Some _ => (Exn OSError, st)
    | None =>
        (Ok tt, Proc (net st) (sent st) (stdout st) (stderr st) (environ st)
                  (dotenv st) (root_dir st) (dirs st ∪ {[p]}) (files st))
    end.

(** [open(p, 'w')]: the file is created or truncated; refused when [p]
    is a directory. *)
Definition open_w (p : string) : M unit :=
  fun st =>
    if decide (p ∈ dirs st) then (Exn OSError, st)
    else
      (Ok tt, Proc (net st) (sent st) (stdout st) (stderr st) (environ st)
                (dotenv st) (root_dir st) (dirs st) (<[p := Empty]> (files st))).

(** [json.dump(v, f, indent=n)] on the file opened at [p] *)
Definition json_dump (v : json) (p : string) (indent : Z) : M unit :=
  fun st =>
    (Ok tt, Proc (net st) (sent st) (stdout st) (stderr st) (environ st)
              (dotenv st) (root_dir st) (dirs st)
              (<[p := JsonDump v indent]> (files st))).

Fixpoint for_each {A S} (xs : list A) (acc : S) (body : A -> S -> M S)
    : M S :=
  match xs with
  | [] => ret acc
  | x :: rest => acc' <- body x acc ;; for_each rest acc' body
  end.

End Primitives.

(** ** SynologyPhotosLib.py *)

(** The string literal ['["tag"]'] of [get_items]. *)
Definition additional_tag : string :=
  "[" ++ String "034"%char "tag" ++ String "034"%char "]".

Section Lib.
Context `{T : Transport}.

Definition authenticate (username password : json) : M json :=
  base <- getenv "SYNOLOGY_PHOTO_URL" ;;
  let endpoint := urljoin base "webapi/auth.cgi" in
  let params :=
    [ ("api", PVal (JStr "SYNO.API.Auth"));
      ("version", PVal (JNum 7));
      ("method", PVal (JStr "login"));
      ("account", PVal username);
      ("passwd", PVal password) ] in
  response <- requests_get endpoint params ;;
  if negb (Z.eqb (status_code response) 200) then
    raise (SynologyPhotoError
             [Lit "Request failed: "; Val (JNum (status_code response))])
  else
    data <- response_json response ;;
    success <- data.["success"] ;;
    if negb (truthy success) then
      error <- data.["error"] ;;
      code <- error.["code"] ;;
      raise (SynologyPhotoError [Lit "Authentication failed: "; fmt code])
    else
      d <- data.["data"] ;;
      d.["sid"].

Definition get_api_info : M json :=
  base <- getenv "SYNOLOGY_PHOTO_URL" ;;
  let endpoint := urljoin base "webapi/query.cgi" in
  let params :=
    [ ("api", PVal (JStr "SYNO.API.Info"));
      ("version", PVal (JNum 1));
      ("method", PVal (JStr "query")) ] in
  response <- requests_get endpoint params ;;
  if negb (Z.eqb (status_code response) 200) then
    raise (SynologyPhotoError
             [Lit "Request failed: "; Val (JNum (status_code response))])
  else
    data <- response_json response ;;
    success <- data.["success"] ;;
    if negb (truthy success) then
      error <- data.["error"] ;;
      code <- error.["code"] ;;
      raise (SynologyPhotoError [Lit "Failed to get API Info: "; fmt code])
    else
      data.["data"].

Definition get_folders (sid folder_id : json) : M json :=
  base <- getenv "SYNOLOGY_PHOTO_URL" ;;
  let endpoint := urljoin base "webapi/entry.cgi" in
  let params :=
    [ ("api", PVal (JStr "SYNO.Foto.Browse.Folder"));
      ("version", PVal (JNum 2));
      ("id", PVal folder_id);
      ("method", PVal (JStr "list"));
      ("_sid", PVal sid);
      ("offset", PVal (JNum 0));
      ("limit", PVal (JNum 100)) ] in
  response <- requests_get endpoint params ;;
  if negb (Z.eqb (status_code response) 200) then
    raise (SynologyPhotoError
             [Lit "Request failed: "; Val (JNum (status_code response))])
  else
    data <- response_json response ;;
    success <- data.["success"] ;;
    if negb (truthy success) then
      error <- data.["error"] ;;
      code <- error.["code"] ;;
      raise (SynologyPhotoError [Lit "Failed to get root folders: "; fmt code])
    else
      d <- data.["data"] ;;
      d.["list"].

Fixpoint get_items (fuel : nat) (sid folder_id : json) (recursive : bool)
    : M json :=
  match fuel with
  | O => out_of_fuel
  | S fuel' =>
      base <- getenv "SYNOLOGY_PHOTO_URL" ;;
      let endpoint := urljoin base "webapi/entry.cgi" in
      let params :=
        [ ("api", PVal (JStr "SYNO.Foto.Browse.Item"));
          ("version", PVal (JNum 4));
          ("folder_id", PVal folder_id);
          ("method", PVal (JStr "list"));
          ("_sid", PVal sid);
          ("offset", PVal (JNum 0));
          ("limit", PVal (JNum 100));
          ("additional", PVal (JStr additional_tag)) ] in
      response <- requests_get endpoint params ;;
      if negb (Z.eqb (status_code response) 200) then
        raise (SynologyPhotoError
                 [Lit "Request failed: "; Val (JNum (status_code response))])
      else
        data <- response_json response ;;
        success <- data.["success"] ;;
        if negb (truthy success) then
          error <- data.["error"] ;;
          code <- error.["code"] ;;
          raise (SynologyPhotoError [Lit "Failed to get items: "; fmt code])
        else
          d <- data.["data"] ;;
          items <- d.["list"] ;;
          if recursive then
            folders <- get_folders sid folder_id ;;
            each <- lift (py_iter folders) ;;
            for_each each items (fun folder items =>
              own <- lift (extend_attr items) ;;
              id <- folder.["id"] ;;
              sub <- get_items fuel' sid id true ;;
              more <- lift (py_iter sub) ;;
              ret (JList (own ++ more)))
          else
            ret items
  end.

Definition get_all_tags (sid : json) : M json :=
  base <- getenv "SYNOLOGY_PHOTO_URL" ;;
  let endpoint := urljoin base "webapi/entry.cgi" in
  let params :=
    [ ("api", PVal (JStr "SYNO.Foto.Browse.GeneralTag"));
      ("version", PVal (JNum 1));
      ("method", PVal (JStr "list"));
      ("_sid", PVal sid);
      ("limit", PVal (JNum 100));
      ("offset", PVal (JNum 0)) ] in
  response <- requests_get endpoint params ;;
  if negb (Z.eqb (status_code response) 200) then
    raise (SynologyPhotoError
             [Lit "Request failed: "; Val (JNum (status_code response))])
  else
    data <- response_json response ;;
    success <- data.["success"] ;;
    if negb (truthy success) then
      error <- data.["error"] ;;
      code <- error.["code"] ;;
      raise (SynologyPhotoError [Lit "Failed to get all tags: "; fmt code])
    else
      d <- data.["data"] ;;
      d.["list"].

(** The [for tag in tags] loop of [get_tag], and the [raise] after it. *)
Fixpoint get_tag_loop (tags : list json) (tag_name : string) : res json :=
  match tags with
  | [] =>
      Exn (SynologyPhotoError [Lit "Tag '"; Lit tag_name; Lit "' not found."])
  | tag :: rest =>
      res_bind (getitem tag "name") (fun name =>
      if eq_str name tag_name then Ok tag else get_tag_loop rest tag_name)
  end.

Definition get_tag (sid : json) (tag_name : string) : M json :=
  tags <- get_all_tags sid ;;
  each <- lift (py_iter tags) ;;
  lift (get_tag_loop each tag_name).

Definition add_tag (sid item_ids tag_ids : json) : M unit :=
  base <- getenv "SYNOLOGY_PHOTO_URL" ;;
  let endpoint := urljoin base "webapi/entry.cgi" in
  let params :=
    [ ("api", PVal (JStr "SYNO.Foto.Browse.Item"));
      ("version", PVal (JNum 1));
      ("method", PVal (JStr "add_tag"));
      ("_sid", PVal sid);
      ("id", PDumps item_ids);
      ("tag", PDumps tag_ids) ] in
  response <- requests_get endpoint params ;;
  if negb (Z.eqb (status_code response) 200) then
    raise (SynologyPhotoError
             [Lit "Request failed: "; Val (JNum (status_code response))])
  else
    data <- response_json response ;;
    success <- data.["success"] ;;
    if negb (truthy success) then
      error <- data.["error"] ;;
      code <- error.["code"] ;;
      raise (SynologyPhotoError [Lit "Failed to add tags: "; fmt code])
    else
      ret tt.

End Lib.

(** ** The scripts *)

Fixpoint ends_with_slash (s : string) : bool :=
  match s with
  | EmptyString => false
  | String c EmptyString => Ascii.eqb c "/"
  | String _ rest => ends_with_slash rest
  end.

(** [os.path.join(a, b)] of [posixpath] *)
Definition path_join (a b : string) : string :=
  if String.prefix "/" b then b
  else if String.eqb a EmptyString || ends_with_slash a then a ++ b
  else a ++ "/" ++ b.

Definition is_SynologyPhotoError (e : exn) : bool :=
  match e with
  | SynologyPhotoError _ => true
  | _ => false
  end.

(** [except Exception]: everything but [SystemExit]. *)
Definition is_Exception (e : exn) : bool :=
  match e with
  | SystemExit _ => false
  | _ => true
  end.

(** The exit status of the interpreter: 0 at the end of the script, the
    argument of [sys.exit], 1 for an exception nobody caught. *)
Definition exit_code {A} (r : res A) : option Z :=
  match r with
  | Ok _ => Some 0
  | Exn (SystemExit c) => Some c
  | Exn _ => Some 1
  | Fuel => None
  end.

Module AddTags.
Section Script.
Context `{T : Transport}.

Definition team_folders_id : list (string * Z) :=
  [ ("U20F", 3048); ("U18M-2", 3042); ("U18M-1", 3037); ("U16M-2", 3032);
    ("U16M-1", 3027); ("U16F", 3022); ("U14M-2", 3017); ("U14M-1", 3012);
    ("U12-2", 3007); ("U12-1", 3002); ("U10-1", 2997); ("3LRM", 2992);
    ("3LRF", 2987); ("2LRM", 2982); ("1LNM", 2977) ].

(** The body of the [try] of [process_team]. *)
Definition process_team_body (fuel : nat) (sid : json) (team_name : string)
    (folder_id : Z) : M unit :=
  print_out [OLit "Processing team "; OLit team_name; OLit "..."] ;;;
  items <- get_items fuel sid (JNum folder_id) true ;;
  each <- lift (py_iter items) ;;
  items_ids <- lift (map_res (fun item => getitem item "id") each) ;;
  tag <- get_tag sid team_name ;;
  tag_id <- tag.["id"] ;;
  add_tag sid (JList items_ids) (JList [tag_id]).

Definition process_team (fuel : nat) (sid : json) (team_name : string)
    (folder_id : Z) : M unit :=
  try_except (process_team_body fuel sid team_name folder_id)
    is_SynologyPhotoError
    (fun e =>
       print_err [OLit "Error processing team "; OLit team_name; OLit ": ";
                  OExn e]).

Definition required_env : list string :=
  ["SYNOLOGY_PHOTO_USERNAME"; "SYNOLOGY_PHOTO_PASSWORD"; "SYNOLOGY_PHOTO_URL"].

(** The loop [for team_name, folder_id in team_folders_id.items()]. *)
Definition process_teams (fuel : nat) (sid : json)
    (teams : list (string * Z)) : M unit :=
  for_each teams tt (fun team _ =>
    process_team fuel sid (fst team) (snd team)).

(** The body of the [try] of the main block. *)
Definition main_body (fuel : nat) : M unit :=
  username <- getenv "SYNOLOGY_PHOTO_USERNAME" ;;
  password <- getenv "SYNOLOGY_PHOTO_PASSWORD" ;;
  sid <- authenticate (opt_str username) (opt_str password) ;;
  print_out [OLit "Processing ";
             OVal (JNum (Z.of_nat (length team_folders_id)));
             OLit " teams..."] ;;;
  process_teams fuel sid team_folders_id ;;;
  print_out [OLit "All teams processed successfully"].

Definition main (fuel : nat) : M unit :=
  load_dotenv ;;;
  missing_env <- for_each required_env [] (fun var acc =>
    v <- getenv var ;;
    ret (if negb (truthy (opt_str v)) then acc ++ [var] else acc)) ;;
  match missing_env with
  | _ :: _ =>
      print_err [OLit "Missing required environment variables: ";
                 OLit (String.concat ", " missing_env)] ;;;
      sys_exit 1
  | [] =>
      try_except (main_body fuel) is_SynologyPhotoError
        (fun e => print_err [OLit "Fatal error: "; OExn e] ;;; sys_exit 1)
  end.

End Script.
End AddTags.

Module UpdateApiInfo.
Section Script.
Context `{T : Transport}.

(** The body of the [try]. *)
Definition body (output_dir : string) : M unit :=
  data <- get_api_info ;;
  let output_file := path_join output_dir "api_info.json" in
  open_w output_file ;;;
  json_dump data output_file 4 ;;;
  print_out [OLit "API info saved to "; OLit output_file].

Definition main : M unit :=
  load_dotenv ;;;
  root <- script_root ;;
  let output_dir := path_join root "output" in
  makedirs output_dir ;;;
  try_except (body output_dir) is_Exception
    (fun e => print_err [OLit "Error: "; OExn e] ;;; sys_exit 1).

End Script.
End UpdateApiInfo.

Module UpdateTagsList.
Section Script.
Context `{T : Transport}.

(** The body of the [try]. *)
Definition body (output_dir : string) : M unit :=
  username <- getenv "SYNOLOGY_PHOTO_USERNAME" ;;
  password <- getenv "SYNOLOGY_PHOTO_PASSWORD" ;;
  sid <- authenticate (opt_str username) (opt_str password) ;;
  tags_info <- get_all_tags sid ;;
  let output_file := path_join output_dir "tags_info.json" in
  open_w output_file ;;;
  json_dump tags_info output_file 4 ;;;
  print_out [OLit "Tags info saved to "; OLit output_file].

Definition main : M unit :=
  load_dotenv ;;;
  root <- script_root ;;
  let output_dir := path_join root "output" in
  makedirs output_dir ;;;
  try_except (body output_dir) is_Exception
    (fun e => print_err [OLit "Error: "; OExn e] ;;; sys_exit 1).

End Script.
End UpdateTagsList.

(** ** Vocabulary of the properties *)

(** The request each library function builds, given the value of
    [SYNOLOGY_PHOTO_URL]. *)
Definition auth_request (base : option string) (username password : json)
    : request :=
  Request (urljoin base "webapi/auth.cgi")
    [ ("api", PVal (JStr "SYNO.API.Auth"));
      ("version", PVal (JNum 7));
      ("method", PVal (JStr "login"));
      ("account", PVal username);
      ("passwd", PVal password) ].

Definition api_info_request (base : option string) : request :=
  Request (urljoin base "webapi/query.cgi")
    [ ("api", PVal (JStr "SYNO.API.Info"));
      ("version", PVal (JNum 1));
      ("method", PVal (JStr "query")) ].

Definition folders_request (base : option string) (sid folder_id : json)
    : request :=
  Request (urljoin base "webapi/entry.cgi")
    [ ("api", PVal (JStr "SYNO.Foto.Browse.Folder"));
      ("version", PVal (JNum 2));
      ("id", PVal folder_id);
      ("method", PVal (JStr "list"));
      ("_sid", PVal sid);
      ("offset", PVal (JNum 0));
      ("limit", PVal (JNum 100)) ].

Definition items_request (base : option string) (sid folder_id : json)
    : request :=
  Request (urljoin base "webapi/entry.cgi")
    [ ("api", PVal (JStr "SYNO.Foto.Browse.Item"));
      ("version", PVal (JNum 4));
      ("folder_id", PVal folder_id);
      ("method", PVal (JStr "list"));
      ("_sid", PVal sid);
      ("offset", PVal (JNum 0));
      ("limit", PVal (JNum 100));
      ("additional", PVal (JStr additional_tag)) ].

Definition tags_request (base : option string) (sid : json) : request :=
  Request (urljoin base "webapi/entry.cgi")
    [ ("api", PVal (JStr "SYNO.Foto.Browse.GeneralTag"));
      ("version", PVal (JNum 1));
      ("method", PVal (JStr "list"));
      ("_sid", PVal sid);
      ("limit", PVal (JNum 100));
      ("offset", PVal (JNum 0)) ].

Definition add_tag_request (base : option string) (sid item_ids tag_ids : json)
    : request :=
  Request (urljoin base "webapi/entry.cgi")
    [ ("api", PVal (JStr "SYNO.Foto.Browse.Item"));
      ("version", PVal (JNum 1));
      ("method", PVal (JStr "add_tag"));
      ("_sid", PVal sid);
      ("id", PDumps item_ids);
      ("tag", PDumps tag_ids) ].

(** The two errors of the library: the HTTP status, or the vendor's code
    behind the function's own prefix. *)
Definition request_failed (status : Z) : exn :=
  SynologyPhotoError [Lit "Request failed: "; Val (JNum status)].

Definition vendor_failed (prefix : string) (code : json) : exn :=
  SynologyPhotoError [Lit prefix; fmt code].

(** [e] is the library's error and its message shows the value [v]. *)
Definition carries (e : exn) (v : json) : Prop :=
  match e with
  | SynologyPhotoError msg => In (fmt v) msg
  | _ => False
  end.

(** [data[a][b]] *)
Definition field2 (a b : string) (data : json) : res json :=
  res_bind (getitem data a) (fun d => getitem d b).

(** What every library function makes of the answer to its request:
    [payload] is what it reads from a body that reports success. *)
Definition checked {A} (prefix : string) (payload : json -> res A)
    (answer : option response) : res A :=
  match answer with
  | None => Exn RequestException
  | Some resp =>
      if Z.eqb (status_code resp) 200 then
        match body resp with
        | None => Exn RequestException
        | Some data =>
            res_bind (getitem data "success") (fun success =>
            if truthy success then payload data
            else
              res_bind (field2 "error" "code" data) (fun code =>
              Exn (vendor_failed prefix code)))
        end
      else Exn (request_failed (status_code resp))
  end.

Section Vocabulary.
Context `{T : Transport}.

Definition base_url (st : proc) : option string :=
  environ st !! "SYNOLOGY_PHOTO_URL".

(** The answer of the server to [r] in the state [st]. *)
Definition answer (st : proc) (r : request) : option response :=
  fst (http_get r (net st)).

(** The requests a computation sends when started in [st]. *)
Definition issued {A} (c : M A) (st : proc) : list request :=
  drop (length (sent st)) (sent (snd (c st))).

End Vocabulary.

(** ** Folder trees *)

(** A folder as the vendor shows it: its id, the items the item endpoint
    lists for it, and its subfolders. *)
Inductive folder_tree : Type :=
| Folder (id : json) (items : list json) (subs : list folder_tree).

Definition folder_id (t : folder_tree) : json :=
  match t with Folder id _ _ => id end.

Definition folder_items (t : folder_tree) : list json :=
  match t with Folder _ items _ => items end.

Definition subfolders (t : folder_tree) : list folder_tree :=
  match t with Folder _ _ subs => subs end.

(** Every folder below [t], [t] itself left out. *)
Fixpoint descendants (t : folder_tree) : list folder_tree :=
  match t with
  | Folder _ _ subs => flat_map (fun s => s :: descendants s) subs
  end.

Fixpoint depth (t : folder_tree) : nat :=
  match t with
  | Folder _ _ subs => S (list_max (map depth subs))
  end.

(** The items of a folder together with those of all its descendants. *)
Definition all_items (t : folder_tree) : list json :=
  folder_items t ++ flat_map folder_items (descendants t).

(** The requests of a recursive walk over [t]: for [t] and then each of
    its descendants, one item listing followed by one folder listing. *)
Definition walk_requests (base : option string) (sid : json)
    (t : folder_tree) : list request :=
  flat_map
    (fun f => [ items_request base sid (folder_id f);
                folders_request base sid (folder_id f) ])
    (t :: descendants t).

(** The answer is a 200 whose body reports success and lists [l]. *)
Definition listing (a : option response) (l : list json) : Prop :=
  exists resp data success,
    a = Some resp /\ status_code resp = 200 /\ body resp = Some data /\
    getitem data "success" = Ok success /\ truthy success = true /\
    field2 "data" "list" data = Ok (JList l).

Section Serving.
Context `{T : Transport}.

(** The folder and item endpoints return the tree [t] to the session
    [sid]: the items of each folder, and for its subfolders one entry
    each, in order, holding the subfolder's id. *)
Inductive serves (base : option string) (sid : json) : folder_tree -> Prop :=
| serves_folder id items subs entries :
    (forall w, listing (fst (http_get (items_request base sid id) w)) items) ->
    (forall w,
        listing (fst (http_get (folders_request base sid id) w)) entries) ->
    Forall2 (fun entry sub => getitem entry "id" = Ok (folder_id sub))
      entries subs ->
    Forall (serves base sid) subs ->
    serves base sid (Folder id items subs).

End Serving.

(** ** A mock of the vendor's service *)

Record vendor : Type := Vendor {
  vendor_sid : string;
  vendor_tree : folder_tree;
  vendor_tags : list json
}.

Definition eq_num (v : json) (n : Z) : bool :=
  match v with
  | JNum m => Z.eqb m n
  | _ => false
  end.

Fixpoint find_folder (n : Z) (t : folder_tree) : option folder_tree :=
  match t with
  | Folder id items subs =>
      if eq_num id n then Some t
      else
        (fix among (l : list folder_tree) : option folder_tree :=
           match l with
           | [] => None
           | s :: rest =>
               match find_folder n s with
               | Some found => Some found
               | None => among rest
               end
           end) subs
  end.

Definition success_body (payload : json) : json :=
  JObj [("success", JBool true); ("data", payload)].

Definition failure_body (code : Z) : json :=
  JObj [("success", JBool false); ("error", JObj [("code", JNum code)])].

(** The page of [l] that [offset] and [limit] ask for. *)
Definition page (ps : list (string * pval)) (l : list json) : list json :=
  match param ps "offset", param ps "limit" with
  | Some (PVal (JNum offset)), Some (PVal (JNum limit)) =>
      take (Z.to_nat limit) (drop (Z.to_nat offset) l)
  | _, _ => l
  end.

Definition folder_entry (t : folder_tree) : json :=
  JObj [("id", folder_id t)].

Definition has_session (v : vendor) (ps : list (string * pval)) : bool :=
  match param ps "_sid" with
  | Some (PVal (JStr s)) => String.eqb s (vendor_sid v)
  | _ => false
  end.

Definition vendor_answer (v : vendor) (r : request) : response :=
  let ps := params r in
  match param ps "api", param ps "method" with
  | Some (PVal (JStr api)), Some (PVal (JStr method)) =>
      if String.eqb api "SYNO.API.Auth" then
        Response 200 (Some (success_body (JObj [("sid", JStr (vendor_sid v))])))
      else if String.eqb api "SYNO.API.Info" then
        Response 200 (Some (success_body (JObj [])))
      else if negb (has_session v ps) then
        Response 200 (Some (failure_body 119))
      else if String.eqb api "SYNO.Foto.Browse.GeneralTag" then
        Response 200
          (Some (success_body (JObj [("list", JList (page ps (vendor_tags v)))])))
      else if String.eqb api "SYNO.Foto.Browse.Folder" then
        match param ps "id" with
        | Some (PVal (JNum n)) =>
            match find_folder n (vendor_tree v) with
            | Some t =>
                Response 200
                  (Some (success_body
                     (JObj [("list",
                             JList (page ps (map folder_entry (subfolders t))))])))
            | None => Response 200 (Some (failure_body 642))
            end
        | _ => Response 200 (Some (failure_body 120))
        end
      else if String.eqb api "SYNO.Foto.Browse.Item" then
        if String.eqb method "add_tag" then
          Response 200 (Some (JObj [("success", JBool true)]))
        else
          match param ps "folder_id" with
          | Some (PVal (JNum n)) =>
              match find_folder n (vendor_tree v) with
              | Some t =>
                  Response 200
                    (Some (success_body
                       (JObj [("list", JList (page ps (folder_items t)))])))
              | None => Response 200 (Some (failure_body 642))
              end
          | _ => Response 200 (Some (failure_body 120))
          end
      else Response 404 None
  | _, _ => Response 404 None
  end.

(** The mock keeps no state.  Like [requests], it refuses a URL that has
    no base ([MissingSchema]). *)
Definition vendor_mock (v : vendor) : Transport :=
  {| W := unit;
     http_get := fun r w =>
       match endpoint r with
       | urljoin None _ => (None, w)
       | urljoin (Some _) _ => (Some (vendor_answer v r), w)
       end |}.

Definition photo (n : Z) : json := JObj [("id", JNum n)].

Definition tag (n : Z) (name : string) : json :=
  JObj [("id", JNum n); ("name", JStr name)].

(** A small album: folder 3048 holds two photos and two subfolders, one
    of which has a subfolder of its own. *)
Definition album : folder_tree :=
  Folder (JNum 3048) [photo 1; photo 2]
    [ Folder (JNum 10) [photo 3] [Folder (JNum 11) [photo 4; photo 5] []];
      Folder (JNum 20) [] [] ].

Definition club : vendor :=
  Vendor "s3cr3t" album [tag 7 "U18M-2"; tag 8 "U20F"; tag 9 "u20f"; tag 10 "U20F"].

(** A fresh process: nothing sent or printed, no [.env] file, an empty
    disk, the scripts installed under [/srv/photos/scripts]. *)
Definition boot `{T : Transport} (w : W) (env : list (string * string))
    : proc :=
  Proc w [] [] [] (list_to_map env) ∅ "/srv/photos" ∅ ∅.

Definition start (v : vendor) (env : list (string * string))
    : @proc (vendor_mock v) :=
  @boot (vendor_mock v) tt env.

(** A service that is down: every request gets a 500, here with a body
    that holds a vendor code all the same. *)
Definition down_mock : Transport :=
  {| W := unit;
     http_get := fun r w => (Some (Response 500 (Some (failure_body 119))), w) |}.

(** A service that rejects everything the vendor's way: a 200 whose body
    reports failure with the code 119. *)
Definition refusing_mock : Transport :=
  {| W := unit;
     http_get := fun r w => (Some (Response 200 (Some (failure_body 119))), w) |}.

Definition full_env : list (string * string) :=
  [ ("SYNOLOGY_PHOTO_URL", "https://nas.example/photo/");
    ("SYNOLOGY_PHOTO_USERNAME", "coach");
    ("SYNOLOGY_PHOTO_PASSWORD", "hunter2") ].

(** ** Tags *)

(** The tag has a ['name'] field. *)
Definition has_name (t : json) : Prop :=
  exists v, getitem t "name" = Ok v.

(** The ['name'] field of the tag is the string [s]. *)
Definition named (s : string) (t : json) : Prop :=
  getitem t "name" = Ok (JStr s).

(** The tag has a ['name'] field and it is not the string [s]. *)
Definition named_otherwise (s : string) (t : json) : Prop :=
  exists v, getitem t "name" = Ok v /\ v <> JStr s.

Definition tag_not_found (tag_name : string) : exn :=
  SynologyPhotoError [Lit "Tag '"; Lit tag_name; Lit "' not found."].

(** ** The contract of an API call *)

Section Contract.
Context `{T : Transport}.

(** [call] sends the one request [req]; when the server answers it,
    - a status other than 200 raises the library's error with the status;
    - a 200 whose body reports failure raises the library's error with
      [prefix] and the vendor's code;
    - a 200 whose body reports success gives what [payload] reads from
      the body. *)
Definition api_contract {A} (call : M A) (req : proc -> request)
    (prefix : string) (payload : json -> res A) : Prop :=
  forall st resp,
    answer st (req st) = Some resp ->
    snd (call st) = after_request st (req st)
    /\ (status_code resp <> 200 ->
        fst (call st) =
          Exn (SynologyPhotoError
                 [Lit "Request failed: "; Val (JNum (status_code resp))]))
    /\ (forall data success code,
          status_code resp = 200 -> body resp = Some data ->
          getitem data "success" = Ok success -> truthy success = false ->
          field2 "error" "code" data = Ok code ->
          fst (call st) = Exn (SynologyPhotoError [Lit prefix; fmt code]))
    /\ (forall data success,
          status_code resp = 200 -> body resp = Some data ->
          getitem data "success" = Ok success -> truthy success = true ->
          fst (call st) = payload data).

(** The first two cases alone: how [call] fails on its first request. *)
Definition api_failure_contract {A} (call : M A) (req : proc -> request)
    (prefix : string) : Prop :=
  forall st resp,
    answer st (req st) = Some resp ->
    (status_code resp <> 200 ->
       call st =
         (Exn (SynologyPhotoError
                 [Lit "Request failed: "; Val (JNum (status_code resp))]),
          after_request st (req st)))
    /\ (forall data success code,
          status_code resp = 200 -> body resp = Some data ->
          getitem data "success" = Ok success -> truthy success = false ->
          field2 "error" "code" data = Ok code ->
          call st =
            (Exn (SynologyPhotoError [Lit prefix; fmt code]),
             after_request st (req st))).

End Contract.

(** ** Requests on the wire *)

(** The request carries [sid] as its [_sid] parameter. *)
Definition with_sid (sid : json) (r : request) : Prop :=
  param (params r) "_sid" = Some (PVal sid).

Definition without_sid (r : request) : Prop :=
  param (params r) "_sid" = None.

(** The request asks for the first page of 100. *)
Definition first_page (r : request) : Prop :=
  param (params r) "offset" = Some (PVal (JNum 0))
  /\ param (params r) "limit" = Some (PVal (JNum 100)).

Section Wire.
Context `{T : Transport}.

(** From [st] to [st'] the log of requests grew by requests that all
    satisfy [P]. *)
Definition grows (P : request -> Prop) (st st' : proc) : Prop :=
  exists new, sent st' = sent st ++ new /\ Forall P new.

Definition sends {A} (P : request -> Prop) (c : M A) : Prop :=
  forall st, grows P st (snd (c st)).

End Wire.

(** A vendor with 150 tags, more than one page. *)
Definition crowd : vendor :=
  Vendor "s3cr3t" album
    (map (fun n => tag (Z.of_nat n) "extra") (seq 1 150)).

(** ** Runs of the scripts *)

Section Runs.
Context `{T : Transport}.

(** [os.getenv(var)] is set and not empty. *)
Definition env_set (st : proc) (var : string) : bool :=
  truthy (opt_str (environ st !! var)).

Definition env_complete (st : proc) : Prop :=
  Forall (fun var => env_set st var = true) AddTags.required_env.

(** The process after [load_dotenv()]. *)
Definition loaded (st : proc) : proc := snd (load_dotenv st).

Definition username (st : proc) : json :=
  opt_str (environ st !! "SYNOLOGY_PHOTO_USERNAME").

Definition password (st : proc) : json :=
  opt_str (environ st !! "SYNOLOGY_PHOTO_PASSWORD").

(** [missing_env] of [AddTags.py] *)
Definition missing_env (st : proc) : list string :=
  List.filter (fun var => negb (env_set st var)) AddTags.required_env.

(** The process after one more line on a stream. *)
Definition printed_err (st : proc) (l : line) : proc := snd (print_err l st).

Definition printed_out (st : proc) (l : line) : proc := snd (print_out l st).

(** The output directory of the dump scripts, and the process once
    [os.makedirs] has made it. *)
Definition output_dir (st : proc) : string := path_join (root_dir st) "output".

Definition prepared (st : proc) : proc :=
  snd (makedirs (output_dir st) (loaded st)).

(** The outcome is an exception [except SynologyPhotoError] catches. *)
Definition api_error {A} (r : res A) : Prop :=
  exists msg, r = Exn (SynologyPhotoError msg).

(** The outcome is a value or an exception [except Exception] catches. *)
Definition ordinary {A} (r : res A) : Prop :=
  match r with
  | Ok _ => True
  | Exn e => is_Exception e = true
  | Fuel => False
  end.

Definition raised {A} (r : res A) : Prop :=
  exists e, r = Exn e.

Definition succeeded {A} (r : res A) : Prop :=
  exists a, r = Ok a.

(** The outcome is not [SystemExit]. *)
Definition stays {A} (r : res A) : Prop :=
  forall e, r = Exn e -> is_Exception e = true.

(** The computation never raises [SystemExit]. *)
Definition no_exit {A} (c : M A) : Prop :=
  forall st, stays (fst (c st)).

End Runs.

(** A disk on which both dump files exist already. *)
Definition old_files : gmap string content :=
  {[ "/srv/photos/output/api_info.json" := JsonDump (JStr "old api") 4;
     "/srv/photos/output/tags_info.json" := JsonDump (JStr "old tags") 4 ]}.

Definition reboot `{T : Transport} (w : W) (env : list (string * string))
    : proc :=
  Proc w [] [] [] (list_to_map env) ∅ "/srv/photos"
    {[ "/srv/photos/output" ]} old_files.

(** ** Further vocabulary: failures below the vendor's protocol *)

Section Failures.
Context `{T : Transport}.

(** [call] sends the one request [req] and, when the HTTP layer gives no
    answer or a 200 whose text is not JSON, raises the HTTP library's
    exception. *)
Definition transport_contract {A} (call : M A) (req : proc -> request)
    : Prop :=
  forall st,
    (answer st (req st) = None ->
       call st = (Exn RequestException, after_request st (req st)))
    /\ (forall resp,
          answer st (req st) = Some resp ->
          status_code resp = 200 -> body resp = None ->
          call st = (Exn RequestException, after_request st (req st))).

(** What [call] does with a 200 whose body is JSON of another shape than
    the vendor's: not an object, an object without ['success'], a failure
    without ['error']. *)
Definition shape_contract {A} (call : M A) (req : proc -> request) : Prop :=
  forall st resp data,
    answer st (req st) = Some resp ->
    status_code resp = 200 -> body resp = Some data ->
    ((forall kv, data <> JObj kv) ->
       call st = (Exn TypeError, after_request st (req st)))
    /\ (forall kv,
          data = JObj kv -> dict_get kv "success" = None ->
          call st = (Exn (KeyError "success"), after_request st (req st)))
    /\ (forall kv success,
          data = JObj kv -> dict_get kv "success" = Some success ->
          truthy success = false -> dict_get kv "error" = None ->
          call st = (Exn (KeyError "error"), after_request st (req st))).

(** From [st] to [st'] nothing changed but the server and the log of
    requests: no output, no file, no directory, no variable. *)
Definition same_outside_net (st st' : proc) : Prop :=
  stdout st' = stdout st /\ stderr st' = stderr st
  /\ environ st' = environ st /\ dotenv st' = dotenv st
  /\ root_dir st' = root_dir st /\ dirs st' = dirs st
  /\ files st' = files st.

Definition quiet {A} (c : M A) : Prop :=
  forall st, same_outside_net st (snd (c st)).

End Failures.

(** The request lists something; the request applies tags. *)
Definition is_listing (r : request) : Prop :=
  param (params r) "method" = Some (PVal (JStr "list")).

Definition is_add_tag (r : request) : Prop :=
  param (params r) "method" = Some (PVal (JStr "add_tag")).

(** An album with a subfolder the vendor cannot list (its id is not a
    number), between two that it can. *)
Definition torn_album : folder_tree :=
  Folder (JNum 3048) [photo 1]
    [ Folder (JNum 10) [photo 2] [];
      Folder (JStr "lost") [photo 3] [];
      Folder (JNum 20) [photo 4] [] ].

Definition torn_club : vendor :=
  Vendor "s3cr3t" torn_album [tag 8 "U20F"].

(** An album in which one item has no ['id']. *)
Definition sloppy_album : folder_tree :=
  Folder (JNum 3048) [photo 1; JObj [("filename", JStr "IMG_0002.jpg")]] [].

Definition sloppy_club : vendor :=
  Vendor "s3cr3t" sloppy_album [tag 8 "U20F"].

(** A vendor whose folder 3048 is empty, and one whose second tag has no
    name. *)
Definition empty_club : vendor :=
  Vendor "s3cr3t" (Folder (JNum 3048) [] []) [tag 8 "U20F"].

Definition nameless_club : vendor :=
  Vendor "s3cr3t" album
    [tag 7 "U18M-2"; JObj [("id", JNum 99)]; tag 8 "U20F"].

(** A transport that never answers. *)
Definition dead_mock : Transport :=
  {| W := unit; http_get := fun r w => (None, w) |}.

(** A server that answers every request with a 200 and the body [v]
    ([None]: a text that is not JSON). *)
Definition echo_mock (v : option json) : Transport :=
  {| W := unit; http_get := fun r w => (Some (Response 200 v), w) |}.

(** * Properties *)

(** ** The model on small inputs *)

Example path_join_dir : path_join "/srv/photos" "output" = "/srv/photos/output".
Proof. reflexivity. Qed.

Example path_join_root : path_join "/" "output" = "/output".
Proof. reflexivity. Qed.

Example truthy_zero : truthy (JNum 0) = false /\ truthy (JStr "false") = true.
Proof. split; reflexivity. Qed.

Example getitem_missing :
  getitem (JObj [("success", JBool true)]) "data" = Exn (KeyError "data").
Proof. reflexivity. Qed.

Example getitem_of_list : getitem (JList [JNum 1]) "id" = Exn TypeError.
Proof. reflexivity. Qed.

Example iter_of_dict :
  py_iter (JObj [("id", JNum 1); ("name", JStr "a")]) = Ok [JStr "id"; JStr "name"].
Proof. reflexivity. Qed.

Example first_of_two_tags :
  get_tag_loop (vendor_tags club) "U20F" = Ok (tag 8 "U20F").
Proof. reflexivity. Qed.

Example no_such_tag :
  get_tag_loop (vendor_tags club) "U16F" = Exn (tag_not_found "U16F").
Proof. reflexivity. Qed.

Example walk_of_album :
  fst (get_items 3 (JStr "s3cr3t") (JNum 3048) true (start club full_env)) =
    Ok (JList [photo 1; photo 2; photo 3; photo 4; photo 5]).
Proof. reflexivity. Qed.

Example walk_out_of_fuel :
  fst (get_items 2 (JStr "s3cr3t") (JNum 3048) true (start club full_env)) =
    Fuel.
Proof. reflexivity. Qed.

Example wrong_session :
  fst (get_all_tags (JStr "guess") (start club full_env)) =
    Exn (SynologyPhotoError [Lit "Failed to get all tags: "; Val (JNum 119)]).
Proof. reflexivity. Qed.

Section MonadFacts.
Context `{T : Transport}.

Lemma bind_ok {A B} (c : M A) (k : A -> M B) st a st' :
  c st = (Ok a, st') -> bind c k st = k a st'.
Proof. unfold bind. now intros ->. Qed.

Lemma bind_exn {A B} (c : M A) (k : A -> M B) st e st' :
  c st = (Exn e, st') -> bind c k st = (Exn e, st').
Proof. unfold bind. now intros ->. Qed.

Lemma bind_fuel {A B} (c : M A) (k : A -> M B) st st' :
  c st = (Fuel, st') -> bind c k st = (Fuel, st').
Proof. unfold bind. now intros ->. Qed.

Lemma bind_inv_ok {A B} (c : M A) (k : A -> M B) st b st' :
  bind c k st = (Ok b, st') ->
  exists a st1, c st = (Ok a, st1) /\ k a st1 = (Ok b, st').
Proof.
  unfold bind. destruct (c st) as [[a| |] st1]; try discriminate.
  intros H. now exists a, st1.
Qed.

Lemma lift_inv_ok {A} (r : res A) st a st' :
  lift r st = (Ok a, st') -> r = Ok a /\ st' = st.
Proof. unfold lift. now intros [= -> ->]. Qed.

End MonadFacts.

Section LibFacts.
Context `{T : Transport}.

Ltac unfold_call :=
  unfold bind, getenv, requests_get, answer, base_url, checked, field2,
    response_json, lift, raise, ret; simpl.

Ltac by_cases_on_answer :=
  unfold_call;
  repeat match goal with
  | |- context [match fst (http_get ?r ?w) with _ => _ end] =>
      destruct (fst (http_get r w)); simpl
  | |- context [if Z.eqb ?a ?b then _ else _] =>
      destruct (Z.eqb a b); simpl
  | |- context [match body ?r with _ => _ end] =>
      destruct (body r); simpl
  | |- context [match getitem ?v ?k with _ => _ end] =>
      destruct (getitem v k); simpl
  | |- context [if truthy ?v then _ else _] =>
      destruct (truthy v); simpl
  end;
  try reflexivity.

(** Every function of the library that sends one request is: send it,
    then [checked]. *)
Lemma authenticate_eq username password st :
  authenticate username password st =
    (checked "Authentication failed: " (field2 "data" "sid")
       (answer st (auth_request (base_url st) username password)),
     after_request st (auth_request (base_url st) username password)).
Proof. unfold authenticate, auth_request. by_cases_on_answer. Qed.

Lemma get_api_info_eq st :
  get_api_info st =
    (checked "Failed to get API Info: " (fun data => getitem data "data")
       (answer st (api_info_request (base_url st))),
     after_request st (api_info_request (base_url st))).
Proof. unfold get_api_info, api_info_request. by_cases_on_answer. Qed.

Lemma get_folders_eq sid folder_id st :
  get_folders sid folder_id st =
    (checked "Failed to get root folders: " (field2 "data" "list")
       (answer st (folders_request (base_url st) sid folder_id)),
     after_request st (folders_request (base_url st) sid folder_id)).
Proof. unfold get_folders, folders_request. by_cases_on_answer. Qed.

Lemma get_all_tags_eq sid st :
  get_all_tags sid st =
    (checked "Failed to get all tags: " (field2 "data" "list")
       (answer st (tags_request (base_url st) sid)),
     after_request st (tags_request (base_url st) sid)).
Proof. unfold get_all_tags, tags_request. by_cases_on_answer. Qed.

Lemma add_tag_eq sid item_ids tag_ids st :
  add_tag sid item_ids tag_ids st =
    (checked "Failed to add tags: " (fun _ => Ok tt)
       (answer st (add_tag_request (base_url st) sid item_ids tag_ids)),
     after_request st (add_tag_request (base_url st) sid item_ids tag_ids)).
Proof. unfold add_tag, add_tag_request. by_cases_on_answer. Qed.

Lemma get_items_flat_eq fuel sid folder_id st :
  get_items (S fuel) sid folder_id false st =
    (checked "Failed to get items: " (field2 "data" "list")
       (answer st (items_request (base_url st) sid folder_id)),
     after_request st (items_request (base_url st) sid folder_id)).
Proof. simpl. unfold items_request. by_cases_on_answer. Qed.

(** The walk over the subfolders that follows the first request of a
    recursive [get_items]. *)
Lemma get_items_rec_eq fuel sid folder_id st :
  get_items (S fuel) sid folder_id true st =
    match checked "Failed to get items: " (field2 "data" "list")
            (answer st (items_request (base_url st) sid folder_id)) with
    | Ok items =>
        (folders <- get_folders sid folder_id ;;
         each <- lift (py_iter folders) ;;
         for_each each items (fun folder items =>
           own <- lift (extend_attr items) ;;
           id <- folder.["id"] ;;
           sub <- get_items fuel sid id true ;;
           more <- lift (py_iter sub) ;;
           ret (JList (own ++ more))))
          (after_request st (items_request (base_url st) sid folder_id))
    | Exn e =>
        (Exn e, after_request st (items_request (base_url st) sid folder_id))
    | Fuel =>
        (Fuel, after_request st (items_request (base_url st) sid folder_id))
    end.
Proof.
  cbn [get_items]. unfold items_request.
  unfold bind at 1 2. unfold getenv, requests_get, answer, base_url, checked.
  destruct (fst (http_get _ _)) as [resp|]; [|reflexivity].
  destruct (Z.eqb (status_code resp) 200); simpl; [|reflexivity].
  unfold response_json, bind at 1.
  destruct (body resp) as [data|]; [|reflexivity].
  unfold ret, lift, bind at 1; simpl.
  destruct (getitem data "success") as [s| |]; simpl; try reflexivity.
  destruct (truthy s); simpl; unfold field2, bind at 1; simpl.
  - destruct (getitem data "data") as [d| |]; simpl; try reflexivity.
  - destruct (getitem data "error") as [err| |]; simpl; try reflexivity.
    unfold bind at 1, raise; simpl.
    destruct (getitem err "code"); reflexivity.
Qed.

End LibFacts.

(** ** The recursive walk of [get_items] *)

Section Walk.
Context `{T : Transport}.

Lemma listing_checked a l prefix :
  listing a l -> checked prefix (field2 "data" "list") a = Ok (JList l).
Proof.
  intros (resp & data & success & -> & Hstatus & Hbody & Hsucc & Htrue & Hlist).
  unfold checked. rewrite Hstatus, Hbody. simpl.
  rewrite Hsucc. simpl. rewrite Htrue. exact Hlist.
Qed.

Lemma base_url_after_request st r :
  base_url (after_request st r) = base_url st.
Proof. reflexivity. Qed.

Lemma all_items_unfold id items subs :
  all_items (Folder id items subs) = items ++ flat_map all_items subs.
Proof.
  unfold all_items at 1. simpl. f_equal.
  induction subs as [|s subs IH]; simpl; [reflexivity|].
  rewrite flat_map_app, IH. unfold all_items at 2.
  now rewrite <- app_assoc.
Qed.

Lemma depth_subfolders id items subs fuel :
  (depth (Folder id items subs) <= S fuel)%nat ->
  Forall (fun s => (depth s <= fuel)%nat) subs.
Proof.
  simpl. intros H. apply Nat.succ_le_mono in H.
  apply list_max_le in H. rewrite List.Forall_map in H. exact H.
Qed.

Lemma walk_requests_unfold base sid id items subs :
  walk_requests base sid (Folder id items subs) =
    [items_request base sid id; folders_request base sid id]
    ++ flat_map (walk_requests base sid) subs.
Proof.
  unfold walk_requests at 1. cbn [flat_map descendants folder_id].
  simpl. do 2 f_equal.
  induction subs as [|s subs IH]; simpl; [reflexivity|].
  rewrite flat_map_app, IH. reflexivity.
Qed.

(** The loop over the subfolders, given that each recursive call returns
    the items of its subtree and sends the requests of its walk. *)
Lemma walk_subfolders (visit : json -> M json) (base : option string)
    (sid : json) :
  forall entries subs,
    Forall2 (fun entry sub => getitem entry "id" = Ok (folder_id sub))
      entries subs ->
    Forall (fun sub => forall st, base_url st = base ->
              exists st',
                visit (folder_id sub) st = (Ok (JList (all_items sub)), st')
                /\ base_url st' = base
                /\ sent st' = sent st ++ walk_requests base sid sub) subs ->
    forall acc st, base_url st = base ->
      exists st',
        for_each entries (JList acc) (fun folder items =>
          own <- lift (extend_attr items) ;;
          id <- folder.["id"] ;;
          sub <- visit id ;;
          more <- lift (py_iter sub) ;;
          ret (JList (own ++ more))) st
        = (Ok (JList (acc ++ flat_map all_items subs)), st')
        /\ base_url st' = base
        /\ sent st' = sent st ++ flat_map (walk_requests base sid) subs.
Proof.
  intros entries subs.
  induction 1 as [|entry sub entries subs Hid _ IH]; intros Hsubs acc st Hst.
  - exists st. simpl. rewrite !app_nil_r. repeat split. exact Hst.
  - apply Forall_cons_iff in Hsubs. destruct Hsubs as [Hsub Hsubs].
    destruct (Hsub st Hst) as (st1 & Hvisit & Hst1 & Hsent1).
    destruct (IH Hsubs (acc ++ all_items sub) st1 Hst1)
      as (st2 & Hrest & Hst2 & Hsent2).
    exists st2. split; [|split; [exact Hst2|]].
    + cbn [for_each]. erewrite bind_ok.
      * rewrite Hrest. now rewrite <- app_assoc.
      * unfold bind, lift, ret. simpl. rewrite Hid, Hvisit. reflexivity.
    + rewrite Hsent2, Hsent1. simpl. now rewrite <- app_assoc.
Qed.

Lemma get_items_walks fuel :
  forall t sid st,
    serves (base_url st) sid t -> (depth t <= fuel)%nat ->
    exists st',
      get_items fuel sid (folder_id t) true st = (Ok (JList (all_items t)), st')
      /\ base_url st' = base_url st
      /\ sent st' = sent st ++ walk_requests (base_url st) sid t.
Proof.
  induction fuel as [|fuel IH]; intros t sid st Hserves Hdepth.
  - destruct t; simpl in Hdepth; lia.
  - inversion Hserves as [id items subs entries Hitems Hfolders Hids Hsubs Heq].
    subst t. simpl folder_id.
    rewrite get_items_rec_eq. unfold answer.
    rewrite (listing_checked _ _ _ (Hitems (net st))).
    set (st1 := after_request st (items_request (base_url st) sid id)).
    unfold bind at 1. rewrite get_folders_eq. unfold answer.
    change (base_url st1) with (base_url st).
    rewrite (listing_checked _ _ _ (Hfolders (net st1))).
    set (st2 := after_request st1 (folders_request (base_url st) sid id)).
    unfold bind at 1. unfold lift at 1. simpl py_iter. cbv iota beta.
    rewrite all_items_unfold, walk_requests_unfold.
    destruct (walk_subfolders (fun id => get_items fuel sid id true)
                (base_url st) sid entries subs Hids) with (acc := items) (st := st2)
      as (st' & Hrun & Hbase & Hsent).
    + apply depth_subfolders in Hdepth.
      rewrite List.Forall_forall in Hsubs, Hdepth. apply List.Forall_forall.
      intros sub Hin st' Hst'.
      destruct (IH sub sid st') as (st'' & Hrun & Hbase & Hsent).
      * rewrite Hst'. now apply Hsubs.
      * now apply Hdepth.
      * exists st''. split; [exact Hrun|]. split; [now rewrite Hbase|].
        now rewrite Hsent, Hst'.
    + reflexivity.
    + exists st'. split; [exact Hrun|]. split; [exact Hbase|].
      rewrite Hsent. unfold st2, st1. simpl. now rewrite <- !app_assoc.
Qed.

End Walk.

(** ** Looking a tag up by name *)

Lemma eq_str_true v s : eq_str v s = true <-> v = JStr s.
Proof.
  destruct v; simpl; try (split; [discriminate | intros [=]]).
  rewrite String.eqb_eq. split; [now intros -> | now intros [= ->]].
Qed.

Lemma eq_str_false v s : eq_str v s = false <-> v <> JStr s.
Proof.
  rewrite <- eq_str_true. destruct (eq_str v s); split; congruence.
Qed.

Lemma get_tag_loop_sound tags tag_name t :
  get_tag_loop tags tag_name = Ok t -> In t tags /\ named tag_name t.
Proof.
  induction tags as [|t0 tags IH]; simpl; [discriminate|].
  destruct (getitem t0 "name") as [v| |] eqn:Hname; simpl; try discriminate.
  destruct (eq_str v tag_name) eqn:Heq.
  - intros [= <-]. apply eq_str_true in Heq. subst v. split; [now left|exact Hname].
  - intros H. destruct (IH H) as [Hin Hnamed]. split; [now right|exact Hnamed].
Qed.

Lemma get_tag_loop_first before t after tag_name :
  Forall (named_otherwise tag_name) before ->
  named tag_name t ->
  get_tag_loop (before ++ t :: after) tag_name = Ok t.
Proof.
  intros Hbefore Hnamed.
  induction Hbefore as [|t0 before (v & Hv & Hne) _ IH]; simpl.
  - rewrite Hnamed. simpl. now rewrite String.eqb_refl.
  - rewrite Hv. simpl. apply eq_str_false in Hne. now rewrite Hne.
Qed.

Lemma get_tag_loop_absent tags tag_name :
  Forall (named_otherwise tag_name) tags ->
  get_tag_loop tags tag_name = Exn (tag_not_found tag_name).
Proof.
  induction 1 as [|t0 tags (v & Hv & Hne) _ IH]; simpl; [reflexivity|].
  rewrite Hv. simpl. apply eq_str_false in Hne. now rewrite Hne.
Qed.

Lemma named_or_otherwise tag_name t :
  has_name t -> named tag_name t \/ named_otherwise tag_name t.
Proof.
  intros [v Hv]. destruct (eq_str v tag_name) eqn:Heq.
  - left. apply eq_str_true in Heq. now subst v.
  - right. exists v. split; [exact Hv|]. now apply eq_str_false.
Qed.

(** A list of tags that holds one named [tag_name] splits at the first. *)
Lemma first_named tags tag_name :
  Forall has_name tags ->
  Exists (named tag_name) tags ->
  exists before t after,
    tags = before ++ t :: after /\
    Forall (named_otherwise tag_name) before /\ named tag_name t.
Proof.
  induction 1 as [|t0 tags H0 Hall IH]; intros Hex.
  - inversion Hex.
  - destruct (named_or_otherwise tag_name t0 H0) as [Hyes|Hno].
    + exists [], t0, tags. split; [reflexivity|]. split; [constructor|exact Hyes].
    + apply Exists_cons in Hex. destruct Hex as [Hyes|Hex].
      * destruct Hno as (v & Hv & Hne). unfold named in Hyes. congruence.
      * destruct (IH Hex) as (before & t & after & -> & Hbefore & Hnamed).
        exists (t0 :: before), t, after.
        split; [reflexivity|]. split; [now constructor|exact Hnamed].
Qed.

Lemma none_named tags tag_name :
  Forall has_name tags ->
  ~ Exists (named tag_name) tags ->
  Forall (named_otherwise tag_name) tags.
Proof.
  induction 1 as [|t0 tags H0 Hall IH]; intros Hex; constructor.
  - destruct (named_or_otherwise tag_name t0 H0) as [Hyes|Hno]; [|exact Hno].
    exfalso. apply Hex. now left.
  - apply IH. intros H. apply Hex. now right.
Qed.

Lemma get_tag_eq `{T : Transport} sid tag_name tags st st' :
  get_all_tags sid st = (Ok (JList tags), st') ->
  get_tag sid tag_name st = (get_tag_loop tags tag_name, st').
Proof.
  intros Hall. unfold get_tag. erewrite bind_ok by exact Hall. reflexivity.
Qed.

(** C3. When [get_all_tags] returns a list of tags, each with a name:
    if a tag named [tag_name] is in the list, [get_tag] returns a tag of
    the list whose ['name'] is [tag_name]; if none is, it raises
    [SynologyPhotoError] ("Tag '...' not found."). *)
Theorem get_tag_found_or_raises `{T : Transport} sid tag_name tags st st' :
  get_all_tags sid st = (Ok (JList tags), st') ->
  Forall has_name tags ->
  (Exists (named tag_name) tags ->
     exists t, get_tag sid tag_name st = (Ok t, st')
               /\ In t tags /\ getitem t "name" = Ok (JStr tag_name))
  /\ (~ Exists (named tag_name) tags ->
        get_tag sid tag_name st =
          (Exn (SynologyPhotoError
                  [Lit "Tag '"; Lit tag_name; Lit "' not found."]), st')).
Proof.
  intros Hall Hnames. rewrite (get_tag_eq _ _ _ _ _ Hall). split.
  - intros Hex.
    destruct (first_named tags tag_name Hnames Hex)
      as (before & t & after & -> & Hbefore & Hnamed).
    exists t. rewrite (get_tag_loop_first _ _ _ _ Hbefore Hnamed).
    split; [reflexivity|]. split; [|exact Hnamed].
    apply in_or_app. right. now left.
  - intros Hnone.
    now rewrite (get_tag_loop_absent _ _ (none_named _ _ Hnames Hnone)).
Qed.

(** C10. When [get_all_tags] returns a list in which the tags before [t]
    have names other than the string [tag_name] (a name that differs only
    in case is another name) and [t] is named [tag_name], [get_tag]
    returns [t], whatever follows it in the list; and a tag that [get_tag]
    returns has exactly the string [tag_name] as its name. *)
Theorem get_tag_first_exact `{T : Transport} sid tag_name before t after st st' :
  get_all_tags sid st = (Ok (JList (before ++ t :: after)), st') ->
  Forall (named_otherwise tag_name) before ->
  named tag_name t ->
  get_tag sid tag_name st = (Ok t, st')
  /\ (forall tag_name' t',
        get_tag sid tag_name' st = (Ok t', st') ->
        getitem t' "name" = Ok (JStr tag_name')).
Proof.
  intros Hall Hbefore Hnamed. split.
  - rewrite (get_tag_eq _ _ _ _ _ Hall).
    now rewrite (get_tag_loop_first _ _ _ _ Hbefore Hnamed).
  - intros tag_name' t'. rewrite (get_tag_eq _ _ _ _ _ Hall).
    intros [= Hloop]. now apply get_tag_loop_sound in Hloop.
Qed.

(** C1. When the folder and item endpoints return the folder tree [t],
    [get_items] with [recursive=True] on the id of [t] returns, given fuel
    for the depth of [t], exactly the items listed for [t] followed by the
    items listed for every descendant folder of [t]: each listing once,
    nothing added, nothing left out. *)
Theorem get_items_recursive_exact `{T : Transport} t sid st fuel :
  serves (base_url st) sid t ->
  (depth t <= fuel)%nat ->
  exists st',
    get_items fuel sid (folder_id t) true st =
      (Ok (JList (folder_items t ++ flat_map folder_items (descendants t))),
       st').
Proof.
  intros Hserves Hdepth.
  destruct (get_items_walks fuel t sid st Hserves Hdepth) as (st' & Hrun & _).
  exists st'. exact Hrun.
Qed.

Ltac listed :=
  intros []; unfold listing; eexists _, _, _;
  repeat split; vm_compute; reflexivity.

Ltac album_is_served :=
  unfold album;
  apply (serves_folder _ _ _ _ _ [JObj [("id", JNum 10)]; JObj [("id", JNum 20)]]);
    [listed | listed | repeat constructor | ];
  repeat constructor;
  [ apply (serves_folder _ _ _ _ _ [JObj [("id", JNum 11)]]);
      [listed | listed | repeat constructor | ];
    repeat constructor;
    apply (serves_folder _ _ _ _ _ []); [listed | listed | constructor | constructor]
  | apply (serves_folder _ _ _ _ _ []); [listed | listed | constructor | constructor] ].

Lemma album_served :
  @serves (vendor_mock club) (Some "https://nas.example/photo/")
    (JStr "s3cr3t") album.
Proof. album_is_served. Qed.

Lemma crowd_album_served :
  @serves (vendor_mock crowd) (Some "https://nas.example/photo/")
    (JStr "s3cr3t") album.
Proof. album_is_served. Qed.

Lemma get_items_recursive_exact_witness :
  exists st',
    @get_items (vendor_mock club) 3 (JStr "s3cr3t") (JNum 3048) true
      (start club full_env) =
      (Ok (JList [photo 1; photo 2; photo 3; photo 4; photo 5]), st').
Proof.
  apply (@get_items_recursive_exact (vendor_mock club) album (JStr "s3cr3t")
           (start club full_env) 3).
  - exact album_served.
  - simpl. lia.
Defined.

Lemma get_tag_found_or_raises_witness :
  let st := start club full_env in
  let st' := after_request st (tags_request (base_url st) (JStr "s3cr3t")) in
  (Exists (named "U20F") (vendor_tags club) ->
     exists t, get_tag (JStr "s3cr3t") "U20F" st = (Ok t, st')
               /\ In t (vendor_tags club)
               /\ getitem t "name" = Ok (JStr "U20F"))
  /\ (~ Exists (named "U20F") (vendor_tags club) ->
        get_tag (JStr "s3cr3t") "U20F" st =
          (Exn (SynologyPhotoError [Lit "Tag '"; Lit "U20F"; Lit "' not found."]),
           st')).
Proof.
  apply (@get_tag_found_or_raises (vendor_mock club)).
  - reflexivity.
  - repeat constructor; eexists; reflexivity.
Defined.

Lemma get_tag_first_exact_witness :
  let st := start club full_env in
  let st' := after_request st (tags_request (base_url st) (JStr "s3cr3t")) in
  get_tag (JStr "s3cr3t") "u20f" st = (Ok (tag 9 "u20f"), st')
  /\ (forall tag_name' t',
        get_tag (JStr "s3cr3t") tag_name' st = (Ok t', st') ->
        getitem t' "name" = Ok (JStr tag_name')).
Proof.
  apply (@get_tag_first_exact (vendor_mock club) (JStr "s3cr3t") "u20f"
           [tag 7 "U18M-2"; tag 8 "U20F"] (tag 9 "u20f") [tag 10 "U20F"]).
  - reflexivity.
  - repeat constructor; eexists; (split; [reflexivity | discriminate]).
  - reflexivity.
Defined.

(** ** How an API call fails and what it returns *)

Section ContractFacts.
Context `{T : Transport}.

Lemma checked_status {A} prefix (payload : json -> res A) resp :
  status_code resp <> 200 ->
  checked prefix payload (Some resp) = Exn (request_failed (status_code resp)).
Proof.
  intros H. unfold checked. apply Z.eqb_neq in H. now rewrite H.
Qed.

Lemma checked_vendor {A} prefix (payload : json -> res A) resp data success code :
  status_code resp = 200 -> body resp = Some data ->
  getitem data "success" = Ok success -> truthy success = false ->
  field2 "error" "code" data = Ok code ->
  checked prefix payload (Some resp) = Exn (vendor_failed prefix code).
Proof.
  intros Hstatus Hbody Hsucc Hfalse Hcode. unfold checked.
  rewrite Hstatus, Hbody. simpl. rewrite Hsucc. simpl.
  now rewrite Hfalse, Hcode.
Qed.

Lemma checked_success {A} prefix (payload : json -> res A) resp data success :
  status_code resp = 200 -> body resp = Some data ->
  getitem data "success" = Ok success -> truthy success = true ->
  checked prefix payload (Some resp) = payload data.
Proof.
  intros Hstatus Hbody Hsucc Htrue. unfold checked.
  rewrite Hstatus, Hbody. simpl. rewrite Hsucc. simpl. now rewrite Htrue.
Qed.

Lemma contract_of_checked {A} (call : M A) req prefix payload :
  (forall st,
     call st = (checked prefix payload (answer st (req st)),
                after_request st (req st))) ->
  api_contract call req prefix payload.
Proof.
  intros Hcall st resp Hanswer. rewrite Hcall, Hanswer. simpl.
  split; [reflexivity|]. split; [|split].
  - apply checked_status.
  - intros data success code. apply checked_vendor.
  - intros data success. apply checked_success.
Qed.

Lemma get_items_rec_fails fuel sid folder_id :
  api_failure_contract (get_items (S fuel) sid folder_id true)
    (fun st => items_request (base_url st) sid folder_id)
    "Failed to get items: ".
Proof.
  intros st resp Hanswer. rewrite get_items_rec_eq, Hanswer. split.
  - intros H. now rewrite checked_status.
  - intros data success code H1 H2 H3 H4 H5.
    now rewrite (checked_vendor _ _ _ _ _ _ H1 H2 H3 H4 H5).
Qed.

End ContractFacts.

(** C2, as the code has it.  Each of the six API functions sends one
    request and, when it is answered: a status other than 200 raises
    [SynologyPhotoError] with the HTTP status in its message (the body is
    not read); a 200 whose body has a false success flag raises
    [SynologyPhotoError] with the vendor's error code behind the function's
    own prefix; a 200 whose body has a true success flag gives the payload
    read from the body ([data.sid], [data], [data.list], nothing for
    [add_tag]).  A recursive [get_items] fails the same two ways on its
    first request. *)
Theorem api_calls_contract `{T : Transport}
    (username password sid folder_id item_ids tag_ids : json) (fuel : nat) :
  api_contract (authenticate username password)
    (fun st => auth_request (base_url st) username password)
    "Authentication failed: " (field2 "data" "sid")
  /\ api_contract get_api_info
       (fun st => api_info_request (base_url st))
       "Failed to get API Info: " (fun data => getitem data "data")
  /\ api_contract (get_folders sid folder_id)
       (fun st => folders_request (base_url st) sid folder_id)
       "Failed to get root folders: " (field2 "data" "list")
  /\ api_contract (get_items (S fuel) sid folder_id false)
       (fun st => items_request (base_url st) sid folder_id)
       "Failed to get items: " (field2 "data" "list")
  /\ api_failure_contract (get_items (S fuel) sid folder_id true)
       (fun st => items_request (base_url st) sid folder_id)
       "Failed to get items: "
  /\ api_contract (get_all_tags sid)
       (fun st => tags_request (base_url st) sid)
       "Failed to get all tags: " (field2 "data" "list")
  /\ api_contract (add_tag sid item_ids tag_ids)
       (fun st => add_tag_request (base_url st) sid item_ids tag_ids)
       "Failed to add tags: " (fun _ => Ok tt).
Proof.
  repeat apply conj.
  - apply contract_of_checked, authenticate_eq.
  - apply contract_of_checked, get_api_info_eq.
  - apply contract_of_checked, get_folders_eq.
  - apply contract_of_checked, get_items_flat_eq.
  - apply get_items_rec_fails.
  - apply contract_of_checked, get_all_tags_eq.
  - apply contract_of_checked, add_tag_eq.
Qed.

(** C2 as stated fails: the service answers 500, the body holds the vendor
    code 119 all the same, and the error [get_all_tags] raises shows the
    HTTP status 500, not the vendor's code. *)
Lemma api_error_code_counterexample :
  let st := @boot down_mock tt full_env in
  answer st (tags_request (base_url st) (JStr "s3cr3t")) =
    Some (Response 500 (Some (failure_body 119)))
  /\ field2 "error" "code" (failure_body 119) = Ok (JNum 119)
  /\ fst (get_all_tags (JStr "s3cr3t") st) =
       Exn (SynologyPhotoError [Lit "Request failed: "; Val (JNum 500)])
  /\ ~ carries (SynologyPhotoError [Lit "Request failed: "; Val (JNum 500)])
         (JNum 119).
Proof.
  repeat apply conj; try reflexivity.
  simpl. intros [H|[H|[]]]; discriminate.
Qed.

Lemma api_calls_contract_witness :
  let st := start club full_env in
  fst (get_all_tags (JStr "s3cr3t") st) = Ok (JList (vendor_tags club))
  /\ fst (get_all_tags (JStr "s3cr3t") (@boot refusing_mock tt full_env)) =
       Exn (SynologyPhotoError [Lit "Failed to get all tags: "; Val (JNum 119)])
  /\ fst (get_all_tags (JStr "s3cr3t") (@boot down_mock tt full_env)) =
       Exn (SynologyPhotoError [Lit "Request failed: "; Val (JNum 500)]).
Proof.
  repeat apply conj.
  - pose proof (@api_calls_contract (vendor_mock club) JNull JNull
                  (JStr "s3cr3t") JNull JNull JNull 0) as H.
    destruct H as (_ & _ & _ & _ & _ & Htags & _).
    destruct (Htags (start club full_env) _ eq_refl) as (_ & _ & _ & Hok).
    exact (Hok _ _ eq_refl eq_refl eq_refl eq_refl).
  - pose proof (@api_calls_contract refusing_mock JNull JNull
                  (JStr "s3cr3t") JNull JNull JNull 0) as H.
    destruct H as (_ & _ & _ & _ & _ & Htags & _).
    destruct (Htags (@boot refusing_mock tt full_env) _ eq_refl)
      as (_ & _ & Hvendor & _).
    exact (Hvendor _ _ _ eq_refl eq_refl eq_refl eq_refl eq_refl).
  - pose proof (@api_calls_contract down_mock JNull JNull
                  (JStr "s3cr3t") JNull JNull JNull 0) as H.
    destruct H as (_ & _ & _ & _ & _ & Htags & _).
    destruct (Htags (@boot down_mock tt full_env) _ eq_refl)
      as (_ & Hstatus & _).
    apply Hstatus. discriminate.
Defined.

(** ** What goes on the wire *)

Section WireFacts.
Context `{T : Transport}.
Variable P : request -> Prop.

Lemma grows_refl st : grows P st st.
Proof. exists []. split; [now rewrite app_nil_r|constructor]. Qed.

Lemma grows_trans st1 st2 st3 :
  grows P st1 st2 -> grows P st2 st3 -> grows P st1 st3.
Proof.
  intros (n1 & H1 & F1) (n2 & H2 & F2). exists (n1 ++ n2).
  split; [now rewrite H2, H1, app_assoc|].
  apply List.Forall_app. now split.
Qed.

Lemma grows_after_request st r : P r -> grows P st (after_request st r).
Proof. intros H. exists [r]. split; [reflexivity|now constructor]. Qed.

Lemma sends_bind {A B} (c : M A) (k : A -> M B) :
  sends P c -> (forall a, sends P (k a)) -> sends P (bind c k).
Proof.
  intros Hc Hk st. unfold bind. specialize (Hc st).
  destruct (c st) as [[a| |] st1]; simpl in *; try exact Hc.
  eapply grows_trans; [exact Hc|apply Hk].
Qed.

Lemma sends_pure {A} (c : M A) :
  (forall st, sent (snd (c st)) = sent st) -> sends P c.
Proof.
  intros H st. exists []. split; [now rewrite H, app_nil_r|constructor].
Qed.

Lemma sends_lift {A} (r : res A) : sends P (lift r).
Proof. now apply sends_pure. Qed.

Lemma sends_ret {A} (a : A) : sends P (ret a).
Proof. now apply sends_pure. Qed.

Lemma sends_for_each {A S} (body : A -> S -> M S) :
  (forall x acc, sends P (body x acc)) ->
  forall xs acc, sends P (for_each xs acc body).
Proof.
  intros Hbody xs. induction xs as [|x xs IH]; intros acc; simpl.
  - apply sends_ret.
  - apply sends_bind; [apply Hbody|apply IH].
Qed.

Lemma sends_checked {A} (call : M A) req prefix payload :
  (forall st,
     call st = (checked prefix payload (answer st (req st)),
                after_request st (req st))) ->
  (forall st, P (req st)) ->
  sends P call.
Proof.
  intros Hcall HP st. rewrite Hcall. simpl. apply grows_after_request, HP.
Qed.

Lemma get_folders_sends sid folder_id :
  (forall base id, P (folders_request base sid id)) ->
  sends P (get_folders sid folder_id).
Proof.
  intros HP. eapply sends_checked; [apply get_folders_eq|]. intros st. apply HP.
Qed.

Lemma get_items_sends sid :
  (forall base id, P (items_request base sid id)) ->
  (forall base id, P (folders_request base sid id)) ->
  forall fuel folder_id recursive,
    sends P (get_items fuel sid folder_id recursive).
Proof.
  intros Hitems Hfolders.
  induction fuel as [|fuel IH]; intros folder_id recursive.
  - now apply sends_pure.
  - destruct recursive.
    + intros st. rewrite get_items_rec_eq.
      pose proof (grows_after_request st _ (Hitems (base_url st) folder_id)) as H.
      destruct (checked _ _ _) as [items| |]; simpl; try exact H.
      eapply grows_trans; [exact H|].
      apply sends_bind; [now apply get_folders_sends|]. intros folders.
      apply sends_bind; [apply sends_lift|]. intros each.
      apply sends_for_each. intros folder acc.
      apply sends_bind; [apply sends_lift|]. intros own.
      apply sends_bind; [apply sends_lift|]. intros id.
      apply sends_bind; [apply IH|]. intros sub.
      apply sends_bind; [apply sends_lift|]. intros more.
      apply sends_ret.
    + eapply sends_checked; [apply get_items_flat_eq|]. intros st. apply Hitems.
Qed.

Lemma issued_grows {A} (c : M A) st new :
  sent (snd (c st)) = sent st ++ new -> issued c st = new.
Proof. intros H. unfold issued. rewrite H. apply drop_app_length. Qed.

Lemma issued_sends {A} (c : M A) st : sends P c -> Forall P (issued c st).
Proof.
  intros H. destruct (H st) as (new & Hnew & HP).
  now rewrite (issued_grows _ _ _ Hnew).
Qed.

Lemma issued_checked {A} (call : M A) req prefix payload st :
  (forall st,
     call st = (checked prefix payload (answer st (req st)),
                after_request st (req st))) ->
  issued call st = [req st].
Proof. intros H. apply issued_grows. now rewrite H. Qed.

End WireFacts.

Lemma get_tag_full_eq `{T : Transport} sid tag_name st :
  get_tag sid tag_name st =
    (res_bind
       (checked "Failed to get all tags: " (field2 "data" "list")
          (answer st (tags_request (base_url st) sid)))
       (fun tags =>
          res_bind (py_iter tags) (fun each => get_tag_loop each tag_name)),
     after_request st (tags_request (base_url st) sid)).
Proof.
  unfold get_tag, bind. rewrite get_all_tags_eq.
  destruct (checked _ _ _) as [tags| |]; simpl; try reflexivity.
  unfold lift. destruct (py_iter tags); reflexivity.
Qed.

(** C7, as the code has it.  Every request sent by [get_folders],
    [get_items] (recursive or not), [get_all_tags], [get_tag] and [add_tag]
    carries the [sid] argument as its [_sid] parameter, and each of them
    sends at least one request; the one request of [authenticate] and the
    one request of [get_api_info] carry no [_sid]. *)
Theorem sid_on_session_calls `{T : Transport}
    (sid folder_id item_ids tag_ids username password : json)
    (tag_name : string) (recursive : bool) (fuel : nat) (st : proc) :
  (forall r,
      In r (issued (get_folders sid folder_id) st
            ++ issued (get_items fuel sid folder_id recursive) st
            ++ issued (get_all_tags sid) st
            ++ issued (get_tag sid tag_name) st
            ++ issued (add_tag sid item_ids tag_ids) st) ->
      with_sid sid r)
  /\ issued (get_folders sid folder_id) st =
       [folders_request (base_url st) sid folder_id]
  /\ hd_error (issued (get_items (S fuel) sid folder_id recursive) st) =
       Some (items_request (base_url st) sid folder_id)
  /\ issued (get_all_tags sid) st = [tags_request (base_url st) sid]
  /\ issued (get_tag sid tag_name) st = [tags_request (base_url st) sid]
  /\ issued (add_tag sid item_ids tag_ids) st =
       [add_tag_request (base_url st) sid item_ids tag_ids]
  /\ issued (authenticate username password) st =
       [auth_request (base_url st) username password]
  /\ without_sid (auth_request (base_url st) username password)
  /\ issued get_api_info st = [api_info_request (base_url st)]
  /\ without_sid (api_info_request (base_url st)).
Proof.
  assert (Hfolders : issued (get_folders sid folder_id) st =
                       [folders_request (base_url st) sid folder_id])
    by exact (issued_checked _ (fun st => folders_request (base_url st) sid folder_id)
              _ _ st (get_folders_eq sid folder_id)).
  assert (Htags : issued (get_all_tags sid) st =
                    [tags_request (base_url st) sid])
    by exact (issued_checked _ (fun st => tags_request (base_url st) sid)
              _ _ st (get_all_tags_eq sid)).
  assert (Htag : issued (get_tag sid tag_name) st =
                   [tags_request (base_url st) sid])
    by (apply issued_grows; now rewrite get_tag_full_eq).
  assert (Hadd : issued (add_tag sid item_ids tag_ids) st =
                   [add_tag_request (base_url st) sid item_ids tag_ids])
    by exact (issued_checked _
              (fun st => add_tag_request (base_url st) sid item_ids tag_ids)
              _ _ st (add_tag_eq sid item_ids tag_ids)).
  repeat apply conj; try assumption; try reflexivity.
  - intros r. rewrite Hfolders, Htags, Htag, Hadd.
    rewrite !in_app_iff. intros [H|[H|[H|[H|H]]]].
    + destruct H as [<-|[]]. reflexivity.
    + revert r H. apply List.Forall_forall.
      apply issued_sends, get_items_sends; reflexivity.
    + destruct H as [<-|[]]. reflexivity.
    + destruct H as [<-|[]]. reflexivity.
    + destruct H as [<-|[]]. reflexivity.
  - destruct recursive.
    + pose proof (get_items_rec_eq fuel sid folder_id st) as Heq.
      set (st1 := after_request st (items_request (base_url st) sid folder_id)) in *.
      assert (Hgrow : grows (fun _ => True) st1
                        (snd (get_items (S fuel) sid folder_id true st))).
      { rewrite Heq. destruct (checked _ _ _) as [items| |];
          try apply grows_refl.
        apply sends_bind; [now apply get_folders_sends|]. intros folders.
        apply sends_bind; [apply sends_lift|]. intros each.
        apply sends_for_each. intros folder acc.
        apply sends_bind; [apply sends_lift|]. intros own.
        apply sends_bind; [apply sends_lift|]. intros id.
        apply sends_bind; [now apply get_items_sends|]. intros sub.
        apply sends_bind; [apply sends_lift|]. intros more.
        apply sends_ret. }
      destruct Hgrow as (new & Hnew & _).
      erewrite issued_grows; [|rewrite Hnew; unfold st1; simpl;
                               rewrite <- app_assoc; reflexivity].
      reflexivity.
    + rewrite (issued_checked _
                 (fun st => items_request (base_url st) sid folder_id)
                 _ _ st (get_items_flat_eq fuel sid folder_id)).
      reflexivity.
  - exact (issued_checked _
             (fun st => auth_request (base_url st) username password)
             _ _ st (authenticate_eq username password)).
  - exact (issued_checked _ (fun st => api_info_request (base_url st))
             _ _ st get_api_info_eq).
Qed.

(** C7 as stated fails: after a successful login, the request of
    [get_api_info] has no [_sid] parameter. *)
Lemma sid_counterexample :
  let st := start club full_env in
  exists st1,
    authenticate (JStr "coach") (JStr "hunter2") st = (Ok (JStr "s3cr3t"), st1)
    /\ issued get_api_info st1 = [api_info_request (base_url st1)]
    /\ param (params (api_info_request (base_url st1))) "_sid" = None.
Proof.
  intros st.
  exists (after_request st
            (auth_request (base_url st) (JStr "coach") (JStr "hunter2"))).
  split; [now rewrite authenticate_eq|]. split; reflexivity.
Qed.

(** C8. [get_folders], [get_all_tags] and a non-recursive [get_items] send
    exactly one request, and it asks for [offset=0], [limit=100]; every
    request a recursive [get_items] sends asks for the same page, so no
    other page is ever requested; when the server pages a full listing
    the way the parameters ask, what comes back is its first 100 entries;
    and on a folder tree the recursive walk sends, for each folder, one
    item listing and one folder listing. *)
Theorem listings_first_page_only `{T : Transport} (sid fid : json)
    (st : proc) :
  (issued (get_folders sid fid) st =
     [folders_request (base_url st) sid fid]
   /\ first_page (folders_request (base_url st) sid fid))
  /\ (issued (get_all_tags sid) st = [tags_request (base_url st) sid]
      /\ first_page (tags_request (base_url st) sid))
  /\ (forall fuel,
        issued (get_items (S fuel) sid fid false) st =
          [items_request (base_url st) sid fid]
        /\ first_page (items_request (base_url st) sid fid))
  /\ (forall fuel recursive,
        Forall first_page (issued (get_items fuel sid fid recursive) st))
  /\ (forall full,
        listing (answer st (folders_request (base_url st) sid fid))
          (page (params (folders_request (base_url st) sid fid)) full) ->
        fst (get_folders sid fid st) = Ok (JList (take 100 full)))
  /\ (forall full,
        listing (answer st (tags_request (base_url st) sid))
          (page (params (tags_request (base_url st) sid)) full) ->
        fst (get_all_tags sid st) = Ok (JList (take 100 full)))
  /\ (forall fuel full,
        listing (answer st (items_request (base_url st) sid fid))
          (page (params (items_request (base_url st) sid fid)) full) ->
        fst (get_items (S fuel) sid fid false st) =
          Ok (JList (take 100 full)))
  /\ (forall t fuel,
        serves (base_url st) sid t -> (depth t <= fuel)%nat ->
        issued (get_items fuel sid (folder_id t) true) st =
          walk_requests (base_url st) sid t).
Proof.
  repeat apply conj.
  - exact (issued_checked _ (fun st => folders_request (base_url st) sid fid)
             _ _ st (get_folders_eq sid fid)).
  - reflexivity.
  - reflexivity.
  - exact (issued_checked _ (fun st => tags_request (base_url st) sid)
             _ _ st (get_all_tags_eq sid)).
  - reflexivity.
  - reflexivity.
  - intros fuel. split; [|split; reflexivity].
    exact (issued_checked _ (fun st => items_request (base_url st) sid fid)
             _ _ st (get_items_flat_eq fuel sid fid)).
  - intros fuel recursive.
    apply issued_sends, get_items_sends; intros; split; reflexivity.
  - intros full H. rewrite get_folders_eq. simpl.
    now rewrite (listing_checked _ _ _ H).
  - intros full H. rewrite get_all_tags_eq. simpl.
    now rewrite (listing_checked _ _ _ H).
  - intros fuel full H. rewrite get_items_flat_eq. simpl.
    now rewrite (listing_checked _ _ _ H).
  - intros t fuel Hserves Hdepth.
    destruct (get_items_walks fuel t sid st Hserves Hdepth)
      as (st' & Hrun & _ & Hsent).
    apply issued_grows. now rewrite Hrun.
Qed.

Lemma listings_first_page_only_witness :
  let st := start crowd full_env in
  length (vendor_tags crowd) = 150%nat
  /\ fst (get_all_tags (JStr "s3cr3t") st) =
       Ok (JList (take 100 (vendor_tags crowd)))
  /\ issued (get_items 3 (JStr "s3cr3t") (JNum 3048) true) st =
       walk_requests (base_url st) (JStr "s3cr3t") album
  /\ length (walk_requests (base_url st) (JStr "s3cr3t") album) = 8%nat.
Proof.
  split; [reflexivity|].
  destruct (@listings_first_page_only (vendor_mock crowd) (JStr "s3cr3t")
              JNull (start crowd full_env))
    as (_ & _ & _ & _ & _ & Htags & _ & Hwalk).
  split; [|split].
  - apply Htags.
    unfold listing. eexists _, _, _. repeat split; vm_compute; reflexivity.
  - apply (Hwalk album 3%nat); [exact crowd_album_served|simpl; lia].
  - reflexivity.
Defined.

(** ** The batch tagger *)

Import AddTags.

(** C4. For a team of the mapping whose folder is the tree [t] that the
    endpoints return, when the processing of the team succeeds (the body
    of the [try] of [process_team] runs to its end): the recursive
    [get_items] sent the requests of the walk over [t] and returned the
    items of the folder and of all its descendants; [get_tag] returned a
    tag whose name is the team name; and the requests of the team are,
    in order, the walk, the tag listing and one [add_tag] request that
    carries the ids of all those items and the id of that one tag. *)
Theorem process_team_tags_folder `{T : Transport} fuel sid team_name fid t
    st st' :
  In (team_name, fid) team_folders_id ->
  folder_id t = JNum fid ->
  serves (base_url st) sid t ->
  (depth t <= fuel)%nat ->
  process_team_body fuel sid team_name fid st = (Ok tt, st') ->
  process_team fuel sid team_name fid st = (Ok tt, st')
  /\ exists items_ids tag tag_id st1 st2,
       get_items fuel sid (JNum fid) true
         (printed_out st [OLit "Processing team "; OLit team_name; OLit "..."])
         = (Ok (JList (folder_items t ++ flat_map folder_items (descendants t))),
            st1)
       /\ sent st1 = sent st ++ walk_requests (base_url st) sid t
       /\ map_res (fun item => getitem item "id")
            (folder_items t ++ flat_map folder_items (descendants t))
            = Ok items_ids
       /\ get_tag sid team_name st1 = (Ok tag, st2)
       /\ getitem tag "name" = Ok (JStr team_name)
       /\ getitem tag "id" = Ok tag_id
       /\ add_tag sid (JList items_ids) (JList [tag_id]) st2 = (Ok tt, st')
       /\ issued (process_team fuel sid team_name fid) st =
            walk_requests (base_url st) sid t ++
              [ tags_request (base_url st) sid;
                add_tag_request (base_url st) sid (JList items_ids)
                  (JList [tag_id]) ].
Proof.
  intros _ Hid Hserved Hdepth Hbody.
  assert (Hteam : process_team fuel sid team_name fid st = (Ok tt, st'))
    by (unfold process_team, try_except; now rewrite Hbody).
  split; [exact Hteam|].
  unfold process_team_body in Hbody.
  apply bind_inv_ok in Hbody. destruct Hbody as ([] & st0 & Hprint & Hbody).
  assert (Hst0 : st0 = printed_out st
                         [OLit "Processing team "; OLit team_name; OLit "..."])
    by (now injection Hprint).
  subst st0. clear Hprint.
  apply bind_inv_ok in Hbody. destruct Hbody as (items & st1 & Hitems & Hbody).
  destruct (get_items_walks fuel t sid
              (printed_out st
                 [OLit "Processing team "; OLit team_name; OLit "..."])
              Hserved Hdepth) as (st1' & Hwalk & Hbase & Hsent).
  rewrite Hid, Hitems in Hwalk. injection Hwalk as -> <-.
  change (base_url st1 = base_url st) in Hbase.
  change (sent st1 = sent st ++ walk_requests (base_url st) sid t) in Hsent.
  change (all_items t)
    with (folder_items t ++ flat_map folder_items (descendants t)) in *.
  apply bind_inv_ok in Hbody. destruct Hbody as (each & st1' & Heach & Hbody).
  apply lift_inv_ok in Heach. destruct Heach as [Heach ->].
  injection Heach as <-.
  apply bind_inv_ok in Hbody. destruct Hbody as (ids & st1' & Hids & Hbody).
  apply lift_inv_ok in Hids. destruct Hids as [Hids ->].
  apply bind_inv_ok in Hbody. destruct Hbody as (tag & st2 & Htag & Hbody).
  apply bind_inv_ok in Hbody. destruct Hbody as (tag_id & st2' & Htid & Hadd).
  apply lift_inv_ok in Htid. destruct Htid as [Htid ->].
  exists ids, tag, tag_id, st1, st2.
  repeat apply conj; try assumption; try reflexivity.
  - pose proof Htag as Hloop. rewrite get_tag_full_eq in Hloop.
    injection Hloop as Hloop _.
    destruct (checked _ _ _) as [tags| |]; simpl in Hloop; try discriminate.
    destruct (py_iter tags) as [l| |]; simpl in Hloop; try discriminate.
    now apply get_tag_loop_sound in Hloop.
  - apply issued_grows. rewrite Hteam.
    rewrite add_tag_eq in Hadd. injection Hadd as _ Hst'.
    rewrite get_tag_full_eq in Htag. injection Htag as _ Hst2.
    rewrite <- Hst', <- Hst2. rewrite !base_url_after_request.
    unfold after_request. cbn [sent snd].
    rewrite Hbase, Hsent. now rewrite <- !app_assoc.
Qed.

Lemma process_team_tags_folder_witness :
  let st := start club full_env in
  let st' := snd (process_team_body 3 (JStr "s3cr3t") "U20F" 3048 st) in
  process_team 3 (JStr "s3cr3t") "U20F" 3048 st = (Ok tt, st')
  /\ exists items_ids tag tag_id st1 st2,
       get_items 3 (JStr "s3cr3t") (JNum 3048) true
         (printed_out st [OLit "Processing team "; OLit "U20F"; OLit "..."])
         = (Ok (JList [photo 1; photo 2; photo 3; photo 4; photo 5]), st1)
       /\ sent st1 = sent st ++ walk_requests (base_url st) (JStr "s3cr3t") album
       /\ map_res (fun item => getitem item "id")
            [photo 1; photo 2; photo 3; photo 4; photo 5] = Ok items_ids
       /\ get_tag (JStr "s3cr3t") "U20F" st1 = (Ok tag, st2)
       /\ getitem tag "name" = Ok (JStr "U20F")
       /\ getitem tag "id" = Ok tag_id
       /\ add_tag (JStr "s3cr3t") (JList items_ids) (JList [tag_id]) st2
            = (Ok tt, st')
       /\ issued (process_team 3 (JStr "s3cr3t") "U20F" 3048) st =
            walk_requests (base_url st) (JStr "s3cr3t") album ++
              [ tags_request (base_url st) (JStr "s3cr3t");
                add_tag_request (base_url st) (JStr "s3cr3t") (JList items_ids)
                  (JList [tag_id]) ].
Proof.
  apply (@process_team_tags_folder (vendor_mock club) 3 (JStr "s3cr3t") "U20F"
           3048 album).
  - simpl. tauto.
  - reflexivity.
  - exact album_served.
  - simpl. lia.
  - vm_compute. reflexivity.
Defined.

Section TaggerFacts.
Context `{T : Transport}.

Lemma process_team_caught fuel sid team_name folder_id st st1 msg :
  process_team_body fuel sid team_name folder_id st =
    (Exn (SynologyPhotoError msg), st1) ->
  process_team fuel sid team_name folder_id st =
    (Ok tt,
     printed_err st1
       [OLit "Error processing team "; OLit team_name; OLit ": ";
        OExn (SynologyPhotoError msg)]).
Proof. intros H. unfold process_team, try_except. now rewrite H. Qed.

Lemma process_team_no_api_error fuel sid team_name folder_id st :
  ~ api_error (fst (process_team fuel sid team_name folder_id st)).
Proof.
  unfold process_team, try_except.
  destruct (process_team_body _ _ _ _ _) as [[[]|e|] st1]; simpl.
  - intros [msg H]. discriminate.
  - destruct e; simpl; intros [m H]; discriminate.
  - intros [msg H]. discriminate.
Qed.

Lemma process_teams_no_api_error fuel sid teams :
  forall st, ~ api_error (fst (process_teams fuel sid teams st)).
Proof.
  unfold process_teams.
  induction teams as [|[team folder] teams IH]; intros st; simpl.
  - intros [msg H]. discriminate.
  - unfold bind. pose proof (process_team_no_api_error fuel sid team folder st) as H.
    simpl. destruct (process_team _ _ _ _ _) as [[[]|e|] st1]; simpl in *.
    + apply IH.
    + exact H.
    + intros [msg Hm]. discriminate.
Qed.

Lemma missing_env_complete st : missing_env st = [] <-> env_complete st.
Proof.
  unfold missing_env, env_complete, required_env.
  rewrite !Forall_cons_iff. simpl.
  destruct (env_set st "SYNOLOGY_PHOTO_USERNAME"),
    (env_set st "SYNOLOGY_PHOTO_PASSWORD"),
    (env_set st "SYNOLOGY_PHOTO_URL"); simpl;
    (split; intros H;
     [ try discriminate; repeat split; constructor
     | try reflexivity; destruct H as (H1 & H2 & H3 & _); discriminate ]).
Qed.

Lemma main_eq fuel st :
  main fuel st =
    match missing_env (loaded st) with
    | _ :: _ =>
        (Exn (SystemExit 1),
         printed_err (loaded st)
           [OLit "Missing required environment variables: ";
            OLit (String.concat ", " (missing_env (loaded st)))])
    | [] =>
        try_except (main_body fuel) is_SynologyPhotoError
          (fun e => print_err [OLit "Fatal error: "; OExn e] ;;; sys_exit 1)
          (loaded st)
    end.
Proof.
  unfold main. rewrite (bind_ok load_dotenv _ st tt (loaded st) eq_refl).
  assert (Hmissing :
    for_each required_env [] (fun var acc =>
      v <- getenv var ;;
      ret (if negb (truthy (opt_str v)) then acc ++ [var] else acc))
      (loaded st) = (Ok (missing_env (loaded st)), loaded st)).
  { unfold missing_env, required_env, env_set. cbn [for_each List.filter].
    unfold bind, getenv, ret.
    destruct (truthy (opt_str (environ (loaded st) !! "SYNOLOGY_PHOTO_USERNAME")));
      destruct (truthy (opt_str (environ (loaded st) !! "SYNOLOGY_PHOTO_PASSWORD")));
      destruct (truthy (opt_str (environ (loaded st) !! "SYNOLOGY_PHOTO_URL")));
      reflexivity. }
  rewrite (bind_ok _ _ _ _ _ Hmissing).
  destruct (missing_env (loaded st)); reflexivity.
Qed.

Lemma main_body_eq fuel st :
  main_body fuel st =
    match authenticate (username st) (password st) st with
    | (Ok sid, st_a) =>
        (process_teams fuel sid team_folders_id ;;;
         print_out [OLit "All teams processed successfully"])
          (printed_out st_a
             [OLit "Processing ";
              OVal (JNum (Z.of_nat (length team_folders_id)));
              OLit " teams..."])
    | (Exn e, st_a) => (Exn e, st_a)
    | (Fuel, st_a) => (Fuel, st_a)
    end.
Proof.
  unfold main_body. unfold bind at 1 2 3. unfold getenv at 1 2.
  fold (username st). fold (password st).
  destruct (authenticate _ _ _) as [[sid|e|] st_a]; reflexivity.
Qed.

(** With the environment complete and the login accepted, the exit code
    of the script is the one the loop over the teams leaves. *)
Lemma main_exit_after_login fuel st sid st_a :
  env_complete (loaded st) ->
  authenticate (username (loaded st)) (password (loaded st)) (loaded st)
    = (Ok sid, st_a) ->
  exit_code (fst (main fuel st)) =
    exit_code
      (fst (process_teams fuel sid team_folders_id
              (printed_out st_a
                 [OLit "Processing ";
                  OVal (JNum (Z.of_nat (length team_folders_id)));
                  OLit " teams..."]))).
Proof.
  intros Henv Hauth. apply missing_env_complete in Henv.
  rewrite main_eq, Henv. unfold try_except.
  rewrite main_body_eq, Hauth. unfold bind at 1.
  destruct (process_teams _ _ _ _) as [[[]|e|] st_l]; simpl;
    try reflexivity.
  destruct e; reflexivity.
Qed.

End TaggerFacts.

(** C5. When the processing of a team raises [SynologyPhotoError],
    [process_team] catches it: it returns normally with one more line on
    standard error, and the loop goes on with the teams that remain.  The
    loop never lets a [SynologyPhotoError] out, and once the login is
    accepted the exit code of the script is the one the loop leaves, so
    the failure of a team does not change it. *)
Theorem team_failure_skipped `{T : Transport} fuel sid team_name folder_id
    teams st st1 msg :
  process_team_body fuel sid team_name folder_id st =
    (Exn (SynologyPhotoError msg), st1) ->
  let l := [OLit "Error processing team "; OLit team_name; OLit ": ";
            OExn (SynologyPhotoError msg)] in
  process_team fuel sid team_name folder_id st = (Ok tt, printed_err st1 l)
  /\ stderr (printed_err st1 l) = stderr st1 ++ [l]
  /\ process_teams fuel sid ((team_name, folder_id) :: teams) st =
       process_teams fuel sid teams (printed_err st1 l)
  /\ (forall teams' st', ~ api_error (fst (process_teams fuel sid teams' st')))
  /\ (forall st_start sid' st_a,
        env_complete (loaded st_start) ->
        authenticate (username (loaded st_start)) (password (loaded st_start))
          (loaded st_start) = (Ok sid', st_a) ->
        exit_code (fst (main fuel st_start)) =
          exit_code
            (fst (process_teams fuel sid' team_folders_id
                    (printed_out st_a
                       [OLit "Processing ";
                        OVal (JNum (Z.of_nat (length team_folders_id)));
                        OLit " teams..."])))).
Proof.
  intros Hbody l.
  pose proof (process_team_caught _ _ _ _ _ _ _ Hbody) as Hteam.
  repeat apply conj.
  - exact Hteam.
  - reflexivity.
  - unfold process_teams. cbn [for_each fst snd].
    now rewrite (bind_ok _ _ _ _ _ Hteam).
  - intros teams' st'. apply process_teams_no_api_error.
  - intros st_start sid' st_a. apply main_exit_after_login.
Qed.

Lemma team_failure_skipped_witness :
  let st := start club full_env in
  let st1 := snd (process_team_body 3 (JStr "s3cr3t") "U18M-2" 3042 st) in
  let l := [OLit "Error processing team "; OLit "U18M-2"; OLit ": ";
            OExn (SynologyPhotoError
                    [Lit "Failed to get items: "; Val (JNum 642)])] in
  process_team 3 (JStr "s3cr3t") "U18M-2" 3042 st = (Ok tt, printed_err st1 l)
  /\ process_teams 3 (JStr "s3cr3t") [("U18M-2", 3042); ("U20F", 3048)] st =
       process_teams 3 (JStr "s3cr3t") [("U20F", 3048)] (printed_err st1 l)
  /\ exit_code (fst (main 3 st)) = Some 0
  /\ length (stderr (snd (main 3 st))) = 14%nat.
Proof.
  intros st st1 l.
  destruct (@team_failure_skipped (vendor_mock club) 3 (JStr "s3cr3t")
              "U18M-2" 3042 [("U20F", 3048)] st st1
              [Lit "Failed to get items: "; Val (JNum 642)])
    as (Hteam & _ & Hloop & _ & Hexit).
  - vm_compute. reflexivity.
  - split; [exact Hteam|]. split; [exact Hloop|]. split.
    + rewrite (Hexit st (JStr "s3cr3t")
                 (after_request (loaded st)
                    (auth_request (base_url (loaded st)) (username (loaded st))
                       (password (loaded st))))).
      * vm_compute. reflexivity.
      * repeat constructor.
      * vm_compute. reflexivity.
    + vm_compute. reflexivity.
Defined.

(** ** The dump scripts *)

Section DumpFacts.
Context `{T : Transport}.

Lemma getitem_ordinary v k : ordinary (getitem v k).
Proof.
  unfold getitem. destruct v; simpl; try reflexivity.
  destruct (dict_get kv k); simpl; reflexivity.
Qed.

Lemma field2_ordinary a b data : ordinary (field2 a b data).
Proof.
  unfold field2. pose proof (getitem_ordinary data a) as H.
  destruct (getitem data a); simpl in *; try assumption.
  apply getitem_ordinary.
Qed.

Lemma checked_ordinary {A} prefix (payload : json -> res A) a :
  (forall data, ordinary (payload data)) ->
  ordinary (checked prefix payload a).
Proof.
  intros Hpayload. unfold checked.
  destruct a as [resp|]; simpl; [|reflexivity].
  destruct (Z.eqb (status_code resp) 200); simpl; [|reflexivity].
  destruct (body resp) as [data|]; simpl; [|reflexivity].
  pose proof (getitem_ordinary data "success") as Hs.
  destruct (getitem data "success") as [success| |]; simpl in *; try assumption.
  destruct (truthy success); [apply Hpayload|].
  pose proof (field2_ordinary "error" "code" data) as Hc.
  destruct (field2 "error" "code" data); simpl in *; try assumption.
  reflexivity.
Qed.

Lemma authenticate_ordinary u p st : ordinary (fst (authenticate u p st)).
Proof.
  rewrite authenticate_eq. apply checked_ordinary. apply field2_ordinary.
Qed.

Lemma get_all_tags_ordinary sid st : ordinary (fst (get_all_tags sid st)).
Proof.
  rewrite get_all_tags_eq. apply checked_ordinary. apply field2_ordinary.
Qed.

Lemma get_api_info_ordinary st : ordinary (fst (get_api_info st)).
Proof.
  rewrite get_api_info_eq. apply checked_ordinary.
  intros data. apply getitem_ordinary.
Qed.

Lemma files_prepared st : files (prepared st) = files st.
Proof.
  unfold prepared, makedirs, loaded. simpl.
  destruct (files st !! output_dir st); reflexivity.
Qed.

Lemma dirs_prepared st :
  files st !! output_dir st = None ->
  dirs (prepared st) = dirs st ∪ {[output_dir st]}.
Proof. intros H. unfold prepared, makedirs, loaded. simpl. now rewrite H. Qed.

(** The [with open(...)] block of a dump script. *)
Lemma write_eq data f l st :
  (open_w f ;;; json_dump data f 4 ;;; print_out l) st =
    if decide (f ∈ dirs st) then (Exn OSError, st)
    else
      (Ok tt,
       Proc (net st) (sent st) (stdout st ++ [l]) (stderr st) (environ st)
         (dotenv st) (root_dir st) (dirs st)
         (<[f := JsonDump data 4]> (files st))).
Proof.
  unfold bind, open_w, json_dump, print_out.
  destruct (decide (f ∈ dirs st)); [reflexivity|]. simpl.
  now rewrite insert_insert_eq.
Qed.

(** The [try ... except Exception] of a dump script. *)
Lemma try_dump (b : M unit) st :
  ordinary (fst (b st)) ->
  try_except b is_Exception
    (fun e => print_err [OLit "Error: "; OExn e] ;;; sys_exit 1) st =
    match b st with
    | (Ok tt, st') => (Ok tt, st')
    | (Exn e, st') =>
        (Exn (SystemExit 1), printed_err st' [OLit "Error: "; OExn e])
    | (Fuel, st') => (Fuel, st')
    end.
Proof.
  unfold try_except, ordinary.
  destruct (b st) as [[[]|e|] st']; simpl; try reflexivity.
  now intros ->.
Qed.

Lemma api_info_main_eq st :
  UpdateApiInfo.main st =
    match files st !! output_dir st with
    | Some _ => (Exn OSError, loaded st)
    | None =>
        try_except (UpdateApiInfo.body (output_dir st)) is_Exception
          (fun e => print_err [OLit "Error: "; OExn e] ;;; sys_exit 1)
          (prepared st)
    end.
Proof.
  unfold UpdateApiInfo.main.
  rewrite (bind_ok load_dotenv _ st tt (loaded st) eq_refl).
  rewrite (bind_ok script_root _ (loaded st) (root_dir st) (loaded st) eq_refl).
  unfold bind at 1. unfold prepared, output_dir, makedirs. simpl.
  destruct (files st !! path_join (root_dir st) "output"); reflexivity.
Qed.

Lemma tags_main_eq st :
  UpdateTagsList.main st =
    match files st !! output_dir st with
    | Some _ => (Exn OSError, loaded st)
    | None =>
        try_except (UpdateTagsList.body (output_dir st)) is_Exception
          (fun e => print_err [OLit "Error: "; OExn e] ;;; sys_exit 1)
          (prepared st)
    end.
Proof.
  unfold UpdateTagsList.main.
  rewrite (bind_ok load_dotenv _ st tt (loaded st) eq_refl).
  rewrite (bind_ok script_root _ (loaded st) (root_dir st) (loaded st) eq_refl).
  unfold bind at 1. unfold prepared, output_dir, makedirs. simpl.
  destruct (files st !! path_join (root_dir st) "output"); reflexivity.
Qed.

Lemma api_info_body_eq out st :
  UpdateApiInfo.body out st =
    match get_api_info st with
    | (Ok data, st1) =>
        (open_w (path_join out "api_info.json") ;;;
         json_dump data (path_join out "api_info.json") 4 ;;;
         print_out [OLit "API info saved to ";
                    OLit (path_join out "api_info.json")]) st1
    | (Exn e, st1) => (Exn e, st1)
    | (Fuel, st1) => (Fuel, st1)
    end.
Proof.
  unfold UpdateApiInfo.body. unfold bind at 1.
  destruct (get_api_info st) as [[data|e|] st1]; reflexivity.
Qed.

Lemma tags_body_eq out st :
  UpdateTagsList.body out st =
    match authenticate (username st) (password st) st with
    | (Ok sid, st1) =>
        match get_all_tags sid st1 with
        | (Ok tags_info, st2) =>
            (open_w (path_join out "tags_info.json") ;;;
             json_dump tags_info (path_join out "tags_info.json") 4 ;;;
             print_out [OLit "Tags info saved to ";
                        OLit (path_join out "tags_info.json")]) st2
        | (Exn e, st2) => (Exn e, st2)
        | (Fuel, st2) => (Fuel, st2)
        end
    | (Exn e, st1) => (Exn e, st1)
    | (Fuel, st1) => (Fuel, st1)
    end.
Proof.
  unfold UpdateTagsList.body. unfold bind at 1 2 3. unfold getenv at 1 2.
  fold (username st). fold (password st).
  destruct (authenticate _ _ _) as [[sid|e|] st1]; reflexivity.
Qed.

Lemma api_info_body_ordinary out st :
  ordinary (fst (UpdateApiInfo.body out st)).
Proof.
  rewrite api_info_body_eq. pose proof (get_api_info_ordinary st) as H.
  destruct (get_api_info st) as [[data|e|] st1]; simpl in *; try assumption.
  rewrite write_eq. destruct (decide _); reflexivity.
Qed.

Lemma tags_body_ordinary out st :
  ordinary (fst (UpdateTagsList.body out st)).
Proof.
  rewrite tags_body_eq.
  pose proof (authenticate_ordinary (username st) (password st) st) as H.
  destruct (authenticate _ _ _) as [[sid|e|] st1]; simpl in *; try assumption.
  pose proof (get_all_tags_ordinary sid st1) as H1.
  destruct (get_all_tags sid st1) as [[tags|e|] st2]; simpl in *; try assumption.
  rewrite write_eq. destruct (decide _); reflexivity.
Qed.

End DumpFacts.

(** ** Nothing in the library exits *)

Section NoExit.
Context `{T : Transport}.

Lemma ordinary_stays {A} (r : res A) : ordinary r -> stays r.
Proof. intros H e ->. exact H. Qed.

Lemma no_exit_bind {A B} (c : M A) (k : A -> M B) :
  no_exit c -> (forall a, no_exit (k a)) -> no_exit (bind c k).
Proof.
  intros Hc Hk st. unfold bind. specialize (Hc st).
  destruct (c st) as [[a| |] st1]; simpl in *.
  - apply Hk.
  - intros e' [= <-]. now apply Hc.
  - intros e. discriminate.
Qed.

Lemma no_exit_lift {A} (r : res A) : stays r -> no_exit (lift r).
Proof. intros H st. exact H. Qed.

Lemma no_exit_ok {A} (c : M A) :
  (forall st, succeeded (fst (c st))) -> no_exit c.
Proof. intros H st e He. destruct (H st) as [a Ha]. congruence. Qed.

Lemma no_exit_ret {A} (a : A) : no_exit (ret a).
Proof. apply no_exit_ok. intros st. now exists a. Qed.

Lemma no_exit_print_out l : no_exit (print_out l).
Proof. apply no_exit_ok. intros st. now exists tt. Qed.

Lemma no_exit_for_each {A S} (body : A -> S -> M S) :
  (forall x acc, no_exit (body x acc)) ->
  forall xs acc, no_exit (for_each xs acc body).
Proof.
  intros Hbody xs. induction xs as [|x xs IH]; intros acc; simpl.
  - apply no_exit_ret.
  - apply no_exit_bind; [apply Hbody|apply IH].
Qed.

Lemma stays_getitem v k : stays (getitem v k).
Proof. apply ordinary_stays, getitem_ordinary. Qed.

Lemma stays_py_iter v : stays (py_iter v).
Proof. destruct v; intros e; simpl; intros [= <-]; reflexivity. Qed.

Lemma stays_extend_attr v : stays (extend_attr v).
Proof. destruct v; intros e; simpl; intros [= <-]; reflexivity. Qed.

Lemma stays_map_res {A B} (f : A -> res B) xs :
  (forall x, stays (f x)) -> stays (map_res f xs).
Proof.
  intros Hf. induction xs as [|x xs IH]; simpl; [discriminate|].
  intros e. specialize (Hf x). destruct (f x) as [y| |]; simpl.
  - destruct (map_res f xs) as [ys| |]; simpl; try discriminate.
    intros [= <-]. now apply IH.
  - intros [= <-]. now apply Hf.
  - discriminate.
Qed.

Lemma stays_get_tag_loop tags tag_name : stays (get_tag_loop tags tag_name).
Proof.
  induction tags as [|t tags IH]; simpl.
  - intros e [= <-]. reflexivity.
  - pose proof (stays_getitem t "name") as H.
    destruct (getitem t "name") as [name| |]; simpl.
    + destruct (eq_str name tag_name); [discriminate|exact IH].
    + intros e' [= <-]. now apply H.
    + discriminate.
Qed.

Lemma no_exit_checked {A} (call : M A) req prefix payload :
  (forall st,
     call st = (checked prefix payload (answer st (req st)),
                after_request st (req st))) ->
  (forall data, ordinary (payload data)) ->
  no_exit call.
Proof.
  intros Hcall Hpayload st. rewrite Hcall. simpl.
  now apply ordinary_stays, checked_ordinary.
Qed.

Lemma no_exit_get_folders sid folder_id : no_exit (get_folders sid folder_id).
Proof.
  eapply no_exit_checked; [apply get_folders_eq|]. apply field2_ordinary.
Qed.

Lemma no_exit_get_items fuel :
  forall sid folder_id recursive,
    no_exit (get_items fuel sid folder_id recursive).
Proof.
  induction fuel as [|fuel IH]; intros sid folder_id recursive.
  - intros st e. discriminate.
  - destruct recursive.
    + intros st. rewrite get_items_rec_eq.
      pose proof (checked_ordinary "Failed to get items: "
                    (field2 "data" "list")
                    (answer st (items_request (base_url st) sid folder_id))
                    (field2_ordinary "data" "list")) as H.
      destruct (checked _ _ _) as [items| |]; simpl in *.
      * apply no_exit_bind; [apply no_exit_get_folders|]. intros folders.
        apply no_exit_bind; [apply no_exit_lift, stays_py_iter|]. intros each.
        apply no_exit_for_each. intros folder acc.
        apply no_exit_bind; [apply no_exit_lift, stays_extend_attr|]. intros own.
        apply no_exit_bind; [apply no_exit_lift, stays_getitem|]. intros id.
        apply no_exit_bind; [apply IH|]. intros sub.
        apply no_exit_bind; [apply no_exit_lift, stays_py_iter|]. intros more.
        apply no_exit_ret.
      * intros e' [= <-]. exact H.
      * discriminate.
    + eapply no_exit_checked; [apply get_items_flat_eq|]. apply field2_ordinary.
Qed.

Lemma no_exit_get_tag sid tag_name : no_exit (get_tag sid tag_name).
Proof.
  unfold get_tag.
  apply no_exit_bind.
  - eapply no_exit_checked; [apply get_all_tags_eq|]. apply field2_ordinary.
  - intros tags. apply no_exit_bind; [apply no_exit_lift, stays_py_iter|].
    intros each. apply no_exit_lift, stays_get_tag_loop.
Qed.

Lemma no_exit_add_tag sid item_ids tag_ids :
  no_exit (add_tag sid item_ids tag_ids).
Proof. eapply no_exit_checked; [apply add_tag_eq|]. reflexivity. Qed.

Lemma no_exit_process_team fuel sid team_name folder_id :
  no_exit (process_team fuel sid team_name folder_id).
Proof.
  assert (Hbody : no_exit (process_team_body fuel sid team_name folder_id)).
  { unfold process_team_body.
    apply no_exit_bind; [apply no_exit_print_out|]. intros _.
    apply no_exit_bind; [apply no_exit_get_items|]. intros items.
    apply no_exit_bind; [apply no_exit_lift, stays_py_iter|]. intros each.
    apply no_exit_bind.
    { apply no_exit_lift, stays_map_res. intros x. apply stays_getitem. }
    intros ids.
    apply no_exit_bind; [apply no_exit_get_tag|]. intros tag.
    apply no_exit_bind; [apply no_exit_lift, stays_getitem|]. intros tag_id.
    apply no_exit_add_tag. }
  intros st e. unfold process_team, try_except. specialize (Hbody st).
  destruct (process_team_body _ _ _ _ _) as [[[]|e'|] st1]; simpl in *;
    try discriminate.
  destruct (is_SynologyPhotoError e'); simpl; [discriminate|].
  apply Hbody.
Qed.

Lemma no_exit_process_teams fuel sid teams :
  no_exit (process_teams fuel sid teams).
Proof.
  unfold process_teams. apply no_exit_for_each. intros [team folder] [].
  apply no_exit_process_team.
Qed.

End NoExit.

Section DumpRuns.
Context `{T : Transport}.

Lemma api_info_run st :
  files st !! output_dir st = None ->
  UpdateApiInfo.main st =
    match get_api_info (prepared st) with
    | (Ok data, st1) =>
        if decide (path_join (output_dir st) "api_info.json" ∈ dirs st1) then
          (Exn (SystemExit 1), printed_err st1 [OLit "Error: "; OExn OSError])
        else
          (Ok tt,
           Proc (net st1) (sent st1)
             (stdout st1 ++
                [[OLit "API info saved to ";
                  OLit (path_join (output_dir st) "api_info.json")]])
             (stderr st1) (environ st1) (dotenv st1) (root_dir st1) (dirs st1)
             (<[path_join (output_dir st) "api_info.json" := JsonDump data 4]>
                (files st1)))
    | (Exn e, st1) =>
        (Exn (SystemExit 1), printed_err st1 [OLit "Error: "; OExn e])
    | (Fuel, st1) => (Fuel, st1)
    end.
Proof.
  intros Hdir. rewrite api_info_main_eq, Hdir.
  rewrite try_dump by apply api_info_body_ordinary.
  rewrite api_info_body_eq.
  destruct (get_api_info (prepared st)) as [[data|e|] st1]; try reflexivity.
  rewrite write_eq. destruct (decide _); reflexivity.
Qed.

Lemma tags_run st :
  files st !! output_dir st = None ->
  UpdateTagsList.main st =
    match authenticate (username (prepared st)) (password (prepared st))
            (prepared st) with
    | (Ok sid, st1) =>
        match get_all_tags sid st1 with
        | (Ok tags_info, st2) =>
            if decide (path_join (output_dir st) "tags_info.json" ∈ dirs st2)
            then
              (Exn (SystemExit 1),
               printed_err st2 [OLit "Error: "; OExn OSError])
            else
              (Ok tt,
               Proc (net st2) (sent st2)
                 (stdout st2 ++
                    [[OLit "Tags info saved to ";
                      OLit (path_join (output_dir st) "tags_info.json")]])
                 (stderr st2) (environ st2) (dotenv st2) (root_dir st2)
                 (dirs st2)
                 (<[path_join (output_dir st) "tags_info.json" :=
                      JsonDump tags_info 4]> (files st2)))
        | (Exn e, st2) =>
            (Exn (SystemExit 1), printed_err st2 [OLit "Error: "; OExn e])
        | (Fuel, st2) => (Fuel, st2)
        end
    | (Exn e, st1) =>
        (Exn (SystemExit 1), printed_err st1 [OLit "Error: "; OExn e])
    | (Fuel, st1) => (Fuel, st1)
    end.
Proof.
  intros Hdir. rewrite tags_main_eq, Hdir.
  rewrite try_dump by apply tags_body_ordinary.
  rewrite tags_body_eq.
  destruct (authenticate _ _ _) as [[sid|e|] st1]; try reflexivity.
  destruct (get_all_tags sid st1) as [[tags|e|] st2]; try reflexivity.
  rewrite write_eq. destruct (decide _); reflexivity.
Qed.

Lemma get_api_info_disk st r st1 :
  get_api_info st = (r, st1) -> files st1 = files st /\ dirs st1 = dirs st.
Proof. rewrite get_api_info_eq. now intros [= _ <-]. Qed.

Lemma authenticate_disk u p st r st1 :
  authenticate u p st = (r, st1) -> files st1 = files st /\ dirs st1 = dirs st.
Proof. rewrite authenticate_eq. now intros [= _ <-]. Qed.

Lemma get_all_tags_disk sid st r st1 :
  get_all_tags sid st = (r, st1) -> files st1 = files st /\ dirs st1 = dirs st.
Proof. rewrite get_all_tags_eq. now intros [= _ <-]. Qed.

End DumpRuns.

(** C9. A dump script leaves every file as it was unless its API calls
    returned: when [get_api_info] (for [UpdateTagsList.py]: [authenticate]
    or [get_all_tags]) does not return a value, the files after the run
    are the files before it; when the calls return and the output file
    can be opened, the one change is that the output file holds the dump
    of what the call returned. *)
Theorem dump_writes_only_after_success `{T : Transport} (st : proc) :
  (~ succeeded (fst (get_api_info (prepared st))) ->
     files (snd (UpdateApiInfo.main st)) = files st)
  /\ (forall data st1,
        files st !! output_dir st = None ->
        get_api_info (prepared st) = (Ok data, st1) ->
        path_join (output_dir st) "api_info.json" ∉ dirs (prepared st) ->
        files (snd (UpdateApiInfo.main st)) =
          <[path_join (output_dir st) "api_info.json" := JsonDump data 4]>
            (files st))
  /\ (~ succeeded (fst (authenticate (username (prepared st))
                          (password (prepared st)) (prepared st))) ->
        files (snd (UpdateTagsList.main st)) = files st)
  /\ (forall sid st1,
        authenticate (username (prepared st)) (password (prepared st))
          (prepared st) = (Ok sid, st1) ->
        ~ succeeded (fst (get_all_tags sid st1)) ->
        files (snd (UpdateTagsList.main st)) = files st)
  /\ (forall sid st1 tags_info st2,
        files st !! output_dir st = None ->
        authenticate (username (prepared st)) (password (prepared st))
          (prepared st) = (Ok sid, st1) ->
        get_all_tags sid st1 = (Ok tags_info, st2) ->
        path_join (output_dir st) "tags_info.json" ∉ dirs (prepared st) ->
        files (snd (UpdateTagsList.main st)) =
          <[path_join (output_dir st) "tags_info.json" := JsonDump tags_info 4]>
            (files st)).
Proof.
  repeat apply conj.
  - intros Hfail.
    destruct (files st !! output_dir st) eqn:Hdir.
    { now rewrite api_info_main_eq, Hdir. }
    rewrite (api_info_run st Hdir).
    destruct (get_api_info (prepared st)) as [[data|e|] st1] eqn:Hcall.
    + exfalso. apply Hfail. now exists data.
    + apply get_api_info_disk in Hcall. simpl. destruct Hcall as [-> _].
      apply files_prepared.
    + apply get_api_info_disk in Hcall. simpl. destruct Hcall as [-> _].
      apply files_prepared.
  - intros data st1 Hdir Hcall Hfile.
    rewrite (api_info_run st Hdir), Hcall.
    apply get_api_info_disk in Hcall. destruct Hcall as [Hfiles Hdirs].
    rewrite Hdirs. destruct (decide _) as [Hin|_]; [contradiction|].
    simpl. now rewrite Hfiles, files_prepared.
  - intros Hfail.
    destruct (files st !! output_dir st) eqn:Hdir.
    { now rewrite tags_main_eq, Hdir. }
    rewrite (tags_run st Hdir).
    destruct (authenticate _ _ _) as [[sid|e|] st1] eqn:Hauth.
    + exfalso. apply Hfail. now exists sid.
    + apply authenticate_disk in Hauth. simpl. destruct Hauth as [-> _].
      apply files_prepared.
    + apply authenticate_disk in Hauth. simpl. destruct Hauth as [-> _].
      apply files_prepared.
  - intros sid st1 Hauth Hfail.
    destruct (files st !! output_dir st) eqn:Hdir.
    { now rewrite tags_main_eq, Hdir. }
    rewrite (tags_run st Hdir), Hauth.
    apply authenticate_disk in Hauth. destruct Hauth as [Hfiles1 _].
    destruct (get_all_tags sid st1) as [[tags|e|] st2] eqn:Htags.
    + exfalso. apply Hfail. now exists tags.
    + apply get_all_tags_disk in Htags. simpl. destruct Htags as [-> _].
      rewrite Hfiles1. apply files_prepared.
    + apply get_all_tags_disk in Htags. simpl. destruct Htags as [-> _].
      rewrite Hfiles1. apply files_prepared.
  - intros sid st1 tags st2 Hdir Hauth Htags Hfile.
    rewrite (tags_run st Hdir), Hauth, Htags.
    apply authenticate_disk in Hauth. destruct Hauth as [Hfiles1 Hdirs1].
    apply get_all_tags_disk in Htags. destruct Htags as [Hfiles2 Hdirs2].
    rewrite Hdirs2, Hdirs1. destruct (decide _) as [Hin|_]; [contradiction|].
    simpl. now rewrite Hfiles2, Hfiles1, files_prepared.
Qed.

Lemma dump_writes_only_after_success_witness :
  let st := @reboot down_mock tt full_env in
  files st !! "/srv/photos/output/api_info.json" =
    Some (JsonDump (JStr "old api") 4)
  /\ fst (get_api_info (prepared st)) =
       Exn (SynologyPhotoError [Lit "Request failed: "; Val (JNum 500)])
  /\ files (snd (UpdateApiInfo.main st)) = files st
  /\ files (snd (UpdateTagsList.main st)) = files st.
Proof.
  intros st.
  destruct (@dump_writes_only_after_success down_mock st)
    as (Hinfo & _ & Htags & _).
  split; [reflexivity|]. split; [reflexivity|]. split.
  - apply Hinfo. intros [data H]. discriminate.
  - apply Htags. intros [sid H]. discriminate.
Defined.

Lemma exit_code_raised {A} (r : res A) :
  raised r -> stays r -> exit_code r = Some 1.
Proof.
  intros [e ->] Hstays. specialize (Hstays e eq_refl).
  destruct e; try reflexivity. discriminate.
Qed.

(** C6, as the code has it.  [AddTags.py] exits with 1, before any
    request, when one of the three variables is missing or empty; with 1
    when the login raises; with 0 when the loop over the teams ends, and
    with 1 when an exception leaves the loop.  The dump scripts do not
    check the environment: [UpdateTagsList.py] exits with 1 when the login
    or the tag listing raises and with 0 when both return and the file is
    written; [UpdateApiInfo.py], which neither logs in nor reads the user
    name or the password, exits with 1 when [get_api_info] raises and with
    0 when it returns and the file is written.  Both exit with 1 when
    [SYNOLOGY_PHOTO_URL] is missing and the HTTP layer refuses a URL
    without a base. *)
Theorem exit_codes `{T : Transport} (fuel : nat) (st : proc) :
  (~ env_complete (loaded st) ->
     fst (main fuel st) = Exn (SystemExit 1)
     /\ exit_code (fst (main fuel st)) = Some 1
     /\ sent (snd (main fuel st)) = sent st)
  /\ (env_complete (loaded st) ->
      raised (fst (authenticate (username (loaded st)) (password (loaded st))
                     (loaded st))) ->
      exit_code (fst (main fuel st)) = Some 1)
  /\ (forall sid st_a,
        env_complete (loaded st) ->
        authenticate (username (loaded st)) (password (loaded st)) (loaded st)
          = (Ok sid, st_a) ->
        let loop :=
          fst (process_teams fuel sid team_folders_id
                 (printed_out st_a
                    [OLit "Processing ";
                     OVal (JNum (Z.of_nat (length team_folders_id)));
                     OLit " teams..."])) in
        (succeeded loop -> exit_code (fst (main fuel st)) = Some 0)
        /\ (raised loop -> exit_code (fst (main fuel st)) = Some 1))
  /\ (files st !! output_dir st = None ->
      raised (fst (authenticate (username (prepared st)) (password (prepared st))
                     (prepared st))) ->
      exit_code (fst (UpdateTagsList.main st)) = Some 1)
  /\ (forall sid st1,
        files st !! output_dir st = None ->
        authenticate (username (prepared st)) (password (prepared st))
          (prepared st) = (Ok sid, st1) ->
        raised (fst (get_all_tags sid st1)) ->
        exit_code (fst (UpdateTagsList.main st)) = Some 1)
  /\ (forall sid st1 tags_info st2,
        files st !! output_dir st = None ->
        authenticate (username (prepared st)) (password (prepared st))
          (prepared st) = (Ok sid, st1) ->
        get_all_tags sid st1 = (Ok tags_info, st2) ->
        path_join (output_dir st) "tags_info.json" ∉ dirs (prepared st) ->
        exit_code (fst (UpdateTagsList.main st)) = Some 0)
  /\ (files st !! output_dir st = None ->
      raised (fst (get_api_info (prepared st))) ->
      exit_code (fst (UpdateApiInfo.main st)) = Some 1)
  /\ (forall data st1,
        files st !! output_dir st = None ->
        get_api_info (prepared st) = (Ok data, st1) ->
        path_join (output_dir st) "api_info.json" ∉ dirs (prepared st) ->
        exit_code (fst (UpdateApiInfo.main st)) = Some 0)
  /\ ((forall path ps w,
         fst (http_get (Request (urljoin None path) ps) w) = None) ->
      base_url (loaded st) = None ->
      files st !! output_dir st = None ->
      exit_code (fst (UpdateApiInfo.main st)) = Some 1
      /\ exit_code (fst (UpdateTagsList.main st)) = Some 1).
Proof.
  repeat apply conj.
  - intros Henv. rewrite main_eq.
    destruct (missing_env (loaded st)) as [|var rest] eqn:Hmissing.
    + exfalso. apply Henv. now apply missing_env_complete.
    + repeat split.
  - intros Henv [e Hauth]. apply missing_env_complete in Henv.
    rewrite main_eq, Henv. unfold try_except. rewrite main_body_eq.
    pose proof (authenticate_ordinary (username (loaded st))
                  (password (loaded st)) (loaded st)) as Hord.
    destruct (authenticate _ _ _) as [[sid|e'|] st_a]; simpl in *;
      try discriminate.
    destruct e'; simpl in *; try reflexivity. discriminate.
  - intros sid st_a Henv Hauth loop.
    rewrite (main_exit_after_login fuel st sid st_a Henv Hauth).
    fold loop. split.
    + intros [[] ->]. reflexivity.
    + intros Hraised. apply exit_code_raised; [exact Hraised|].
      apply no_exit_process_teams.
  - intros Hdir [e Hauth]. rewrite (tags_run st Hdir).
    destruct (authenticate _ _ _) as [[sid|e'|] st1]; simpl in *;
      try discriminate.
    reflexivity.
  - intros sid st1 Hdir Hauth [e Htags]. rewrite (tags_run st Hdir), Hauth.
    destruct (get_all_tags sid st1) as [[tags|e'|] st2]; simpl in *;
      try discriminate.
    reflexivity.
  - intros sid st1 tags st2 Hdir Hauth Htags Hfile.
    rewrite (tags_run st Hdir), Hauth, Htags.
    apply authenticate_disk in Hauth. destruct Hauth as [_ Hdirs1].
    apply get_all_tags_disk in Htags. destruct Htags as [_ Hdirs2].
    rewrite Hdirs2, Hdirs1. destruct (decide _) as [Hin|_]; [contradiction|].
    reflexivity.
  - intros Hdir [e Hcall]. rewrite (api_info_run st Hdir).
    destruct (get_api_info (prepared st)) as [[data|e'|] st1]; simpl in *;
      try discriminate.
    reflexivity.
  - intros data st1 Hdir Hcall Hfile.
    rewrite (api_info_run st Hdir), Hcall.
    apply get_api_info_disk in Hcall. destruct Hcall as [_ Hdirs].
    rewrite Hdirs. destruct (decide _) as [Hin|_]; [contradiction|].
    reflexivity.
  - intros Hrefuse Hbase Hdir.
    assert (Hprepared : base_url (prepared st) = None).
    { rewrite <- Hbase. unfold prepared, makedirs.
      destruct (files (loaded st) !! output_dir st); reflexivity. }
    split.
    + rewrite (api_info_run st Hdir), get_api_info_eq.
      unfold answer, api_info_request.
      rewrite Hprepared, Hrefuse. reflexivity.
    + rewrite (tags_run st Hdir), authenticate_eq.
      unfold answer, auth_request.
      rewrite Hprepared, Hrefuse. reflexivity.
Qed.

(** C6 as stated fails: with only [SYNOLOGY_PHOTO_URL] set, user name and
    password missing, [UpdateApiInfo.py] runs to its end and exits
    with 0. *)
Lemma exit_code_counterexample :
  let st := start club [("SYNOLOGY_PHOTO_URL", "https://nas.example/photo/")] in
  environ (loaded st) !! "SYNOLOGY_PHOTO_USERNAME" = None
  /\ environ (loaded st) !! "SYNOLOGY_PHOTO_PASSWORD" = None
  /\ exit_code (fst (UpdateApiInfo.main st)) = Some 0.
Proof. repeat split. Qed.

Lemma exit_codes_witness :
  exit_code (fst (main 3 (start club [("SYNOLOGY_PHOTO_URL", "https://nas.example/photo/")])))
    = Some 1
  /\ exit_code (fst (main 3 (@boot refusing_mock tt full_env))) = Some 1
  /\ exit_code (fst (main 3 (start club full_env))) = Some 0
  /\ exit_code (fst (UpdateTagsList.main (@boot refusing_mock tt full_env)))
       = Some 1
  /\ exit_code (fst (UpdateTagsList.main (start club full_env))) = Some 0
  /\ exit_code (fst (UpdateApiInfo.main (@boot down_mock tt full_env))) = Some 1
  /\ exit_code (fst (UpdateApiInfo.main (start club full_env))) = Some 0
  /\ exit_code (fst (UpdateApiInfo.main
                       (start club [("SYNOLOGY_PHOTO_USERNAME", "coach")])))
       = Some 1.
Proof.
  repeat apply conj.
  - destruct (@exit_codes (vendor_mock club) 3
                (start club [("SYNOLOGY_PHOTO_URL", "https://nas.example/photo/")]))
      as (H & _).
    apply H. intros Henv. apply Forall_cons_iff in Henv.
    destruct Henv as [Huser _]. discriminate.
  - destruct (@exit_codes refusing_mock 3 (@boot refusing_mock tt full_env))
      as (_ & H & _).
    apply H; [repeat constructor|]. eexists. reflexivity.
  - destruct (@exit_codes (vendor_mock club) 3 (start club full_env))
      as (_ & _ & H & _).
    refine (proj1 (H (JStr "s3cr3t") _ _ _) _).
    + repeat constructor.
    + rewrite authenticate_eq. reflexivity.
    + exists tt. vm_compute. reflexivity.
  - destruct (@exit_codes refusing_mock 3 (@boot refusing_mock tt full_env))
      as (_ & _ & _ & H & _).
    apply H; [reflexivity|]. eexists. reflexivity.
  - destruct (@exit_codes (vendor_mock club) 3 (start club full_env))
      as (_ & _ & _ & _ & _ & H & _).
    eapply (H (JStr "s3cr3t")).
    + reflexivity.
    + rewrite authenticate_eq. reflexivity.
    + rewrite get_all_tags_eq. reflexivity.
    + vm_compute. set_solver.
  - destruct (@exit_codes down_mock 3 (@boot down_mock tt full_env))
      as (_ & _ & _ & _ & _ & _ & H & _).
    apply H; [reflexivity|]. eexists. reflexivity.
  - destruct (@exit_codes (vendor_mock club) 3 (start club full_env))
      as (_ & _ & _ & _ & _ & _ & _ & H & _).
    eapply H.
    + reflexivity.
    + rewrite get_api_info_eq. reflexivity.
    + vm_compute. set_solver.
  - destruct (@exit_codes (vendor_mock club) 3
                (start club [("SYNOLOGY_PHOTO_USERNAME", "coach")]))
      as (_ & _ & _ & _ & _ & _ & _ & _ & H).
    apply H; reflexivity.
Defined.

(** * Further properties of the library *)

Section FailureFacts.
Context `{T : Transport}.

Lemma get_items_first_fails fuel sid folder_id recursive st e :
  checked "Failed to get items: " (field2 "data" "list")
    (answer st (items_request (base_url st) sid folder_id)) = Exn e ->
  get_items (S fuel) sid folder_id recursive st =
    (Exn e, after_request st (items_request (base_url st) sid folder_id)).
Proof.
  intros H. destruct recursive.
  - now rewrite get_items_rec_eq, H.
  - now rewrite get_items_flat_eq, H.
Qed.

Lemma get_tag_first_fails sid tag_name st e :
  checked "Failed to get all tags: " (field2 "data" "list")
    (answer st (tags_request (base_url st) sid)) = Exn e ->
  get_tag sid tag_name st =
    (Exn e, after_request st (tags_request (base_url st) sid)).
Proof. intros H. now rewrite get_tag_full_eq, H. Qed.

Lemma fails_of_checked {A} (call : M A) req prefix (payload : json -> res A) :
  (forall st,
     call st = (checked prefix payload (answer st (req st)),
                after_request st (req st))) ->
  forall st e,
    checked prefix payload (answer st (req st)) = Exn e ->
    call st = (Exn e, after_request st (req st)).
Proof. intros Hcall st e H. now rewrite Hcall, H. Qed.

Lemma transport_of_fails {A B} (call : M A) req prefix
    (payload : json -> res B) :
  (forall st e,
     checked prefix payload (answer st (req st)) = Exn e ->
     call st = (Exn e, after_request st (req st))) ->
  transport_contract call req.
Proof.
  intros Hfails st. split.
  - intros Hnone. apply Hfails. now rewrite Hnone.
  - intros resp Hsome Hstatus Hbody. apply Hfails.
    rewrite Hsome. unfold checked. now rewrite Hstatus, Hbody.
Qed.

Lemma shape_of_fails {A B} (call : M A) req prefix
    (payload : json -> res B) :
  (forall st e,
     checked prefix payload (answer st (req st)) = Exn e ->
     call st = (Exn e, after_request st (req st))) ->
  shape_contract call req.
Proof.
  intros Hfails st resp data Hsome Hstatus Hbody. repeat apply conj.
  - intros Hshape. apply Hfails. rewrite Hsome. unfold checked.
    rewrite Hstatus, Hbody. simpl.
    destruct data; try reflexivity. now destruct (Hshape kv).
  - intros kv -> Hkey. apply Hfails. rewrite Hsome. unfold checked.
    rewrite Hstatus, Hbody. simpl. now rewrite Hkey.
  - intros kv success -> Hkey Hfalse Herror. apply Hfails. rewrite Hsome.
    unfold checked. rewrite Hstatus, Hbody. simpl. rewrite Hkey. simpl.
    rewrite Hfalse. unfold field2. simpl. now rewrite Herror.
Qed.

End FailureFacts.

(** X1. A failure of the HTTP layer is not turned into the library's
    error: when the transport gives no answer, or answers 200 with a text
    that is not JSON, each library function raises the HTTP library's
    exception after its one request. *)
Theorem http_failures_surface `{T : Transport}
    (username password sid folder_id item_ids tag_ids : json)
    (tag_name : string) (recursive : bool) (fuel : nat) :
  transport_contract (authenticate username password)
    (fun st => auth_request (base_url st) username password)
  /\ transport_contract get_api_info
       (fun st => api_info_request (base_url st))
  /\ transport_contract (get_folders sid folder_id)
       (fun st => folders_request (base_url st) sid folder_id)
  /\ transport_contract (get_items (S fuel) sid folder_id recursive)
       (fun st => items_request (base_url st) sid folder_id)
  /\ transport_contract (get_all_tags sid)
       (fun st => tags_request (base_url st) sid)
  /\ transport_contract (get_tag sid tag_name)
       (fun st => tags_request (base_url st) sid)
  /\ transport_contract (add_tag sid item_ids tag_ids)
       (fun st => add_tag_request (base_url st) sid item_ids tag_ids).
Proof.
  repeat apply conj.
  - eapply transport_of_fails, fails_of_checked, authenticate_eq.
  - eapply transport_of_fails, fails_of_checked, get_api_info_eq.
  - eapply transport_of_fails, fails_of_checked, get_folders_eq.
  - eapply transport_of_fails. intros st e. apply get_items_first_fails.
  - eapply transport_of_fails, fails_of_checked, get_all_tags_eq.
  - eapply transport_of_fails. intros st e. apply get_tag_first_fails.
  - eapply transport_of_fails, fails_of_checked, add_tag_eq.
Qed.

Lemma http_failures_surface_witness :
  fst (get_items 1 (JStr "s3cr3t") (JNum 3048) true (@boot dead_mock tt full_env))
    = Exn RequestException
  /\ fst (add_tag (JStr "s3cr3t") (JList [JNum 1]) (JList [JNum 8])
            (@boot (echo_mock None) tt full_env))
       = Exn RequestException.
Proof.
  split.
  - destruct (@http_failures_surface dead_mock JNull JNull (JStr "s3cr3t")
                (JNum 3048) JNull JNull "U20F" true 0)
      as (_ & _ & _ & Hitems & _).
    destruct (Hitems (@boot dead_mock tt full_env)) as [Hnone _].
    now rewrite Hnone.
  - destruct (@http_failures_surface (echo_mock None) JNull JNull (JStr "s3cr3t")
                JNull (JList [JNum 1]) (JList [JNum 8]) "U20F" true 0)
      as (_ & _ & _ & _ & _ & _ & Hadd).
    destruct (Hadd (@boot (echo_mock None) tt full_env)) as [_ Hbody].
    now rewrite (Hbody (Response 200 None)).
Defined.

(** X2. A 200 whose JSON body has not the vendor's shape raises one of
    Python's own exceptions, not the library's error: [TypeError] when the
    body is not an object, [KeyError('success')] when the flag is missing,
    [KeyError('error')] when a failure carries no error. *)
Theorem malformed_bodies `{T : Transport}
    (username password sid folder_id item_ids tag_ids : json)
    (tag_name : string) (recursive : bool) (fuel : nat) :
  shape_contract (authenticate username password)
    (fun st => auth_request (base_url st) username password)
  /\ shape_contract get_api_info
       (fun st => api_info_request (base_url st))
  /\ shape_contract (get_folders sid folder_id)
       (fun st => folders_request (base_url st) sid folder_id)
  /\ shape_contract (get_items (S fuel) sid folder_id recursive)
       (fun st => items_request (base_url st) sid folder_id)
  /\ shape_contract (get_all_tags sid)
       (fun st => tags_request (base_url st) sid)
  /\ shape_contract (get_tag sid tag_name)
       (fun st => tags_request (base_url st) sid)
  /\ shape_contract (add_tag sid item_ids tag_ids)
       (fun st => add_tag_request (base_url st) sid item_ids tag_ids).
Proof.
  repeat apply conj.
  - eapply shape_of_fails, fails_of_checked, authenticate_eq.
  - eapply shape_of_fails, fails_of_checked, get_api_info_eq.
  - eapply shape_of_fails, fails_of_checked, get_folders_eq.
  - eapply shape_of_fails. intros st e. apply get_items_first_fails.
  - eapply shape_of_fails, fails_of_checked, get_all_tags_eq.
  - eapply shape_of_fails. intros st e. apply get_tag_first_fails.
  - eapply shape_of_fails, fails_of_checked, add_tag_eq.
Qed.

Lemma malformed_bodies_witness :
  fst (authenticate (JStr "coach") (JStr "hunter2")
         (@boot (echo_mock (Some (JList []))) tt full_env)) = Exn TypeError
  /\ fst (get_folders (JStr "s3cr3t") JNull
            (@boot (echo_mock (Some (JObj [("data", JObj [])]))) tt full_env))
       = Exn (KeyError "success")
  /\ fst (get_all_tags (JStr "s3cr3t")
            (@boot (echo_mock (Some (JObj [("success", JBool false)]))) tt
               full_env))
       = Exn (KeyError "error").
Proof.
  repeat apply conj.
  - destruct (@malformed_bodies (echo_mock (Some (JList []))) (JStr "coach")
                (JStr "hunter2") JNull JNull JNull JNull "U20F" true 0)
      as (Hauth & _).
    destruct (Hauth (@boot (echo_mock (Some (JList []))) tt full_env)
                (Response 200 (Some (JList []))) (JList [])
                eq_refl eq_refl eq_refl) as (Hshape & _).
    rewrite Hshape; [reflexivity|]. intros kv. discriminate.
  - destruct (@malformed_bodies (echo_mock (Some (JObj [("data", JObj [])])))
                JNull JNull (JStr "s3cr3t") JNull JNull JNull "U20F" true 0)
      as (_ & _ & Hfolders & _).
    destruct (Hfolders
                (@boot (echo_mock (Some (JObj [("data", JObj [])]))) tt full_env)
                (Response 200 (Some (JObj [("data", JObj [])])))
                (JObj [("data", JObj [])]) eq_refl eq_refl eq_refl)
      as (_ & Hkey & _).
    now rewrite (Hkey _ eq_refl eq_refl).
  - destruct (@malformed_bodies
                (echo_mock (Some (JObj [("success", JBool false)])))
                JNull JNull (JStr "s3cr3t") JNull JNull JNull "U20F" true 0)
      as (_ & _ & _ & _ & Htags & _).
    destruct (Htags
                (@boot (echo_mock (Some (JObj [("success", JBool false)]))) tt
                   full_env)
                (Response 200 (Some (JObj [("success", JBool false)])))
                (JObj [("success", JBool false)]) eq_refl eq_refl eq_refl)
      as (_ & _ & Herror).
    now rewrite (Herror _ _ eq_refl eq_refl eq_refl eq_refl).
Defined.

(** X3. No function of the library ends the process: whatever the server
    answers, an exception it raises is one that [except Exception]
    catches, never [SystemExit]. *)
Theorem library_never_exits `{T : Transport}
    (username password sid folder_id item_ids tag_ids : json)
    (tag_name : string) (recursive : bool) (fuel : nat) :
  no_exit (authenticate username password)
  /\ no_exit get_api_info
  /\ no_exit (get_folders sid folder_id)
  /\ no_exit (get_items fuel sid folder_id recursive)
  /\ no_exit (get_all_tags sid)
  /\ no_exit (get_tag sid tag_name)
  /\ no_exit (add_tag sid item_ids tag_ids).
Proof.
  repeat apply conj.
  - eapply no_exit_checked; [apply authenticate_eq|]. apply field2_ordinary.
  - eapply no_exit_checked; [apply get_api_info_eq|].
    intros data. apply getitem_ordinary.
  - apply no_exit_get_folders.
  - apply no_exit_get_items.
  - eapply no_exit_checked; [apply get_all_tags_eq|]. apply field2_ordinary.
  - apply no_exit_get_tag.
  - apply no_exit_add_tag.
Qed.

Lemma library_never_exits_witness :
  fst (get_tag (JStr "s3cr3t") "U16F" (start club full_env)) =
    Exn (tag_not_found "U16F")
  /\ is_Exception (tag_not_found "U16F") = true.
Proof.
  split; [reflexivity|].
  destruct (@library_never_exits (vendor_mock club) JNull JNull (JStr "s3cr3t")
              JNull JNull JNull "U16F" true 0)
    as (_ & _ & _ & _ & _ & Htag & _).
  exact (Htag (start club full_env) (tag_not_found "U16F") eq_refl).
Defined.

Section QuietFacts.
Context `{T : Transport}.

Lemma same_outside_net_refl st : same_outside_net st st.
Proof. repeat split. Qed.

Lemma same_outside_net_trans st1 st2 st3 :
  same_outside_net st1 st2 -> same_outside_net st2 st3 ->
  same_outside_net st1 st3.
Proof.
  intros (A1 & A2 & A3 & A4 & A5 & A6 & A7) (B1 & B2 & B3 & B4 & B5 & B6 & B7).
  repeat split; congruence.
Qed.

Lemma quiet_bind {A B} (c : M A) (k : A -> M B) :
  quiet c -> (forall a, quiet (k a)) -> quiet (bind c k).
Proof.
  intros Hc Hk st. unfold bind. specialize (Hc st).
  destruct (c st) as [[a| |] st1]; simpl in *; try exact Hc.
  eapply same_outside_net_trans; [exact Hc|apply Hk].
Qed.

Lemma quiet_lift {A} (r : res A) : quiet (lift r).
Proof. intros st. apply same_outside_net_refl. Qed.

Lemma quiet_ret {A} (a : A) : quiet (ret a).
Proof. intros st. apply same_outside_net_refl. Qed.

Lemma quiet_for_each {A S} (body : A -> S -> M S) :
  (forall x acc, quiet (body x acc)) ->
  forall xs acc, quiet (for_each xs acc body).
Proof.
  intros Hbody xs. induction xs as [|x xs IH]; intros acc; simpl.
  - apply quiet_ret.
  - apply quiet_bind; [apply Hbody|apply IH].
Qed.

Lemma quiet_checked {A} (call : M A) req prefix payload :
  (forall st,
     call st = (checked prefix payload (answer st (req st)),
                after_request st (req st))) ->
  quiet call.
Proof. intros Hcall st. rewrite Hcall. repeat split. Qed.

Lemma quiet_get_items fuel :
  forall sid folder_id recursive,
    quiet (get_items fuel sid folder_id recursive).
Proof.
  induction fuel as [|fuel IH]; intros sid folder_id recursive.
  - intros st. apply same_outside_net_refl.
  - destruct recursive.
    + intros st. rewrite get_items_rec_eq.
      assert (Hfirst : same_outside_net st
                (after_request st (items_request (base_url st) sid folder_id)))
        by repeat split.
      destruct (checked _ _ _) as [items| |]; simpl; try exact Hfirst.
      eapply same_outside_net_trans; [exact Hfirst|].
      apply quiet_bind; [eapply quiet_checked, get_folders_eq|]. intros folders.
      apply quiet_bind; [apply quiet_lift|]. intros each.
      apply quiet_for_each. intros folder acc.
      apply quiet_bind; [apply quiet_lift|]. intros own.
      apply quiet_bind; [apply quiet_lift|]. intros id.
      apply quiet_bind; [apply IH|]. intros sub.
      apply quiet_bind; [apply quiet_lift|]. intros more.
      apply quiet_ret.
    + eapply quiet_checked, get_items_flat_eq.
Qed.

End QuietFacts.

(** X4. The library only talks to the server: no function of it prints,
    touches a file or a directory, or changes the environment; after a
    call the process differs in the server's state and the log of
    requests alone. *)
Theorem library_is_quiet `{T : Transport}
    (username password sid folder_id item_ids tag_ids : json)
    (tag_name : string) (recursive : bool) (fuel : nat) :
  quiet (authenticate username password)
  /\ quiet get_api_info
  /\ quiet (get_folders sid folder_id)
  /\ quiet (get_items fuel sid folder_id recursive)
  /\ quiet (get_all_tags sid)
  /\ quiet (get_tag sid tag_name)
  /\ quiet (add_tag sid item_ids tag_ids).
Proof.
  repeat apply conj.
  - eapply quiet_checked, authenticate_eq.
  - eapply quiet_checked, get_api_info_eq.
  - eapply quiet_checked, get_folders_eq.
  - apply quiet_get_items.
  - eapply quiet_checked, get_all_tags_eq.
  - intros st. rewrite get_tag_full_eq. repeat split.
  - eapply quiet_checked, add_tag_eq.
Qed.

Lemma library_is_quiet_witness :
  let st := start club full_env in
  let st' := snd (get_items 3 (JStr "s3cr3t") (JNum 3048) true st) in
  length (sent st') = 8%nat
  /\ stdout st' = stdout st /\ stderr st' = stderr st
  /\ files st' = files st /\ dirs st' = dirs st.
Proof.
  intros st st'.
  destruct (@library_is_quiet (vendor_mock club) JNull JNull (JStr "s3cr3t")
              (JNum 3048) JNull JNull "U20F" true 3)
    as (_ & _ & _ & Hitems & _).
  destruct (Hitems st) as (H1 & H2 & _ & _ & _ & H6 & H7).
  split; [reflexivity|]. repeat split; assumption.
Defined.

(** ** More on the recursive walk *)

Section WalkMore.
Context `{T : Transport}.

Lemma get_items_rec_of_flat fuel sid folder_id st :
  get_items (S fuel) sid folder_id true st =
    match get_items (S fuel) sid folder_id false st with
    | (Ok items, st1) =>
        (folders <- get_folders sid folder_id ;;
         each <- lift (py_iter folders) ;;
         for_each each items (fun folder items =>
           own <- lift (extend_attr items) ;;
           id <- folder.["id"] ;;
           sub <- get_items fuel sid id true ;;
           more <- lift (py_iter sub) ;;
           ret (JList (own ++ more)))) st1
    | (Exn e, st1) => (Exn e, st1)
    | (Fuel, st1) => (Fuel, st1)
    end.
Proof.
  rewrite get_items_rec_eq, get_items_flat_eq.
  destruct (checked _ _ _); reflexivity.
Qed.

Lemma for_each_app {A S} (body : A -> S -> M S) xs ys :
  forall acc st,
    for_each (xs ++ ys) acc body st =
      match for_each xs acc body st with
      | (Ok acc', st') => for_each ys acc' body st'
      | (Exn e, st') => (Exn e, st')
      | (Fuel, st') => (Fuel, st')
      end.
Proof.
  induction xs as [|x xs IH]; intros acc st; simpl; [reflexivity|].
  unfold bind. destruct (body x acc st) as [[acc'| |] st']; try reflexivity.
  apply IH.
Qed.

Lemma subfolders_walk fuel base sid subs :
  Forall (serves base sid) subs ->
  Forall (fun sub => (depth sub <= fuel)%nat) subs ->
  Forall (fun sub => forall st, base_url st = base ->
            exists st',
              get_items fuel sid (folder_id sub) true st =
                (Ok (JList (all_items sub)), st')
              /\ base_url st' = base
              /\ sent st' = sent st ++ walk_requests base sid sub) subs.
Proof.
  intros Hserved Hdepth.
  rewrite List.Forall_forall in Hserved, Hdepth. apply List.Forall_forall.
  intros sub Hin st Hst.
  destruct (get_items_walks fuel sub sid st) as (st' & Hrun & Hbase & Hsent).
  - rewrite Hst. now apply Hserved.
  - now apply Hdepth.
  - exists st'. split; [exact Hrun|]. split; [now rewrite Hbase|].
    now rewrite Hsent, Hst.
Qed.

Lemma length_walk_requests base sid t :
  length (walk_requests base sid t) = (2 * S (length (descendants t)))%nat.
Proof.
  unfold walk_requests.
  change (S (length (descendants t))) with (length (t :: descendants t)).
  generalize (t :: descendants t). intros l.
  induction l as [|f l IH]; [reflexivity|].
  cbn [flat_map length app]. rewrite IH. lia.
Qed.

End WalkMore.

(** X5. How the recursive listing is made of the plain one: when the
    plain listing of the folder raises, the recursive one raises the same
    error in the same state; when the listing of its subfolders raises,
    so does the recursive listing, and the items already listed are not
    returned; on a folder without subfolders it returns what the plain
    listing returned. *)
Theorem recursive_listing_composes `{T : Transport} fuel sid folder_id st :
  (forall e st1,
      get_items (S fuel) sid folder_id false st = (Exn e, st1) ->
      get_items (S fuel) sid folder_id true st = (Exn e, st1))
  /\ (forall items st1 e st2,
        get_items (S fuel) sid folder_id false st = (Ok items, st1) ->
        get_folders sid folder_id st1 = (Exn e, st2) ->
        get_items (S fuel) sid folder_id true st = (Exn e, st2))
  /\ (forall items st1 st2,
        get_items (S fuel) sid folder_id false st = (Ok items, st1) ->
        get_folders sid folder_id st1 = (Ok (JList []), st2) ->
        get_items (S fuel) sid folder_id true st = (Ok items, st2)).
Proof.
  repeat apply conj.
  - intros e st1 Hflat. now rewrite get_items_rec_of_flat, Hflat.
  - intros items st1 e st2 Hflat Hfolders.
    rewrite get_items_rec_of_flat, Hflat. now apply bind_exn.
  - intros items st1 st2 Hflat Hfolders.
    rewrite get_items_rec_of_flat, Hflat.
    now rewrite (bind_ok _ _ _ _ _ Hfolders).
Qed.

Lemma recursive_listing_composes_witness :
  let st := start club full_env in
  fst (get_items 1 (JStr "s3cr3t") (JNum 999) true st) =
    Exn (SynologyPhotoError [Lit "Failed to get items: "; Val (JNum 642)])
  /\ fst (get_items 1 (JStr "s3cr3t") (JNum 11) true st) =
       Ok (JList [photo 4; photo 5]).
Proof.
  intros st. split.
  - destruct (@recursive_listing_composes (vendor_mock club) 0 (JStr "s3cr3t")
                (JNum 999) st) as (Hfail & _).
    erewrite Hfail; [reflexivity|]. rewrite get_items_flat_eq. reflexivity.
  - destruct (@recursive_listing_composes (vendor_mock club) 0 (JStr "s3cr3t")
                (JNum 11) st) as (_ & _ & Hleaf).
    erewrite Hleaf; [reflexivity| |].
    + rewrite get_items_flat_eq. reflexivity.
    + rewrite get_folders_eq. reflexivity.
Defined.

(** X6. One subfolder that cannot be listed fails the whole walk: when
    the subfolders before it are served and the recursive listing of the
    next one raises [e], the recursive listing of the folder raises [e];
    the items gathered until then and the subfolders after it are given
    up. *)
Theorem failing_subfolder_fails_walk `{T : Transport} fuel sid id items
    entries_ok subs bad bad_id rest e st :
  (forall w,
      listing (fst (http_get (items_request (base_url st) sid id) w)) items) ->
  (forall w,
      listing (fst (http_get (folders_request (base_url st) sid id) w))
        (entries_ok ++ bad :: rest)) ->
  Forall2 (fun entry sub => getitem entry "id" = Ok (folder_id sub))
    entries_ok subs ->
  Forall (serves (base_url st) sid) subs ->
  Forall (fun sub => (depth sub <= fuel)%nat) subs ->
  getitem bad "id" = Ok bad_id ->
  (forall st', base_url st' = base_url st ->
     fst (get_items fuel sid bad_id true st') = Exn e) ->
  fst (get_items (S fuel) sid id true st) = Exn e.
Proof.
  intros Hitems Hfolders Hids Hserved Hdepth Hbad Hfail.
  rewrite get_items_rec_eq. unfold answer.
  rewrite (listing_checked _ _ _ (Hitems (net st))).
  set (st1 := after_request st (items_request (base_url st) sid id)).
  unfold bind at 1. rewrite get_folders_eq. unfold answer.
  change (base_url st1) with (base_url st).
  rewrite (listing_checked _ _ _ (Hfolders (net st1))).
  set (st2 := after_request st1 (folders_request (base_url st) sid id)).
  unfold bind at 1. unfold lift at 1. simpl py_iter. cbv iota beta.
  rewrite for_each_app.
  destruct (walk_subfolders (fun id => get_items fuel sid id true)
              (base_url st) sid entries_ok subs Hids
              (subfolders_walk fuel (base_url st) sid subs Hserved Hdepth)
              items st2 eq_refl)
    as (st3 & Hrun & Hbase & _).
  rewrite Hrun. cbn [for_each]. unfold bind at 1.
  specialize (Hfail st3 Hbase).
  unfold bind, lift. simpl. rewrite Hbad.
  destruct (get_items fuel sid bad_id true st3) as [r st4].
  simpl in Hfail. subst r. reflexivity.
Qed.

Lemma failing_subfolder_fails_walk_witness :
  fst (get_items 2 (JStr "s3cr3t") (JNum 3048) true (start torn_club full_env))
    = Exn (SynologyPhotoError [Lit "Failed to get items: "; Val (JNum 120)]).
Proof.
  apply (@failing_subfolder_fails_walk (vendor_mock torn_club) 1 (JStr "s3cr3t")
           (JNum 3048) [photo 1] [JObj [("id", JNum 10)]]
           [Folder (JNum 10) [photo 2] []] (JObj [("id", JStr "lost")])
           (JStr "lost") [JObj [("id", JNum 20)]]).
  - listed.
  - listed.
  - repeat constructor.
  - repeat constructor.
    apply (serves_folder _ _ _ _ _ []); [listed | listed | constructor | constructor].
  - repeat constructor.
  - reflexivity.
  - intros st' Hbase. rewrite get_items_rec_eq. unfold answer.
    rewrite Hbase. destruct (net st'). reflexivity.
Defined.

(** X7. What a recursive listing costs: on a folder tree the endpoints
    return, it sends two requests for every folder of the tree, the
    folder itself and each descendant, leaves included. *)
Theorem walk_sends_two_requests_per_folder `{T : Transport} t sid st fuel :
  serves (base_url st) sid t ->
  (depth t <= fuel)%nat ->
  length (issued (get_items fuel sid (folder_id t) true) st) =
    (2 * (1 + length (descendants t)))%nat.
Proof.
  intros Hserved Hdepth.
  destruct (get_items_walks fuel t sid st Hserved Hdepth)
    as (st' & Hrun & _ & Hsent).
  rewrite (issued_grows _ st (walk_requests (base_url st) sid t)).
  - apply length_walk_requests.
  - now rewrite Hrun.
Qed.

Lemma walk_sends_two_requests_per_folder_witness :
  length (issued (get_items 3 (JStr "s3cr3t") (JNum 3048) true)
            (start club full_env)) = 8%nat.
Proof.
  apply (@walk_sends_two_requests_per_folder (vendor_mock club) album
           (JStr "s3cr3t") (start club full_env) 3).
  - exact album_served.
  - simpl. lia.
Defined.

(** X8. A tag without a name stops the search: when the tags before it
    have other names and an entry of the list is an object without
    ['name'], [get_tag] raises [KeyError('name')], not "not found", even
    if a tag of the wanted name comes later in the list. *)
Theorem get_tag_nameless_entry `{T : Transport} sid tag_name before kv after
    st st' :
  get_all_tags sid st = (Ok (JList (before ++ JObj kv :: after)), st') ->
  Forall (named_otherwise tag_name) before ->
  dict_get kv "name" = None ->
  get_tag sid tag_name st = (Exn (KeyError "name"), st').
Proof.
  intros Hall Hbefore Hkey. rewrite (get_tag_eq _ _ _ _ _ Hall). f_equal.
  clear Hall.
  induction Hbefore as [|t0 before (v & Hv & Hne) _ IH]; simpl.
  - now rewrite Hkey.
  - rewrite Hv. simpl. apply eq_str_false in Hne. rewrite Hne. exact IH.
Qed.

Lemma get_tag_nameless_entry_witness :
  let st := start nameless_club full_env in
  fst (get_tag (JStr "s3cr3t") "U20F" st) = Exn (KeyError "name")
  /\ In (tag 8 "U20F") (vendor_tags nameless_club).
Proof.
  intros st. split.
  - rewrite (@get_tag_nameless_entry (vendor_mock nameless_club) (JStr "s3cr3t")
               "U20F" [tag 7 "U18M-2"] [("id", JNum 99)] [tag 8 "U20F"] st
               (after_request st (tags_request (base_url st) (JStr "s3cr3t")))).
    + reflexivity.
    + rewrite get_all_tags_eq. reflexivity.
    + repeat constructor. eexists. split; [reflexivity|discriminate].
    + reflexivity.
  - simpl. tauto.
Defined.

(** * Further properties of the batch tagger *)

Section TaggerMore.
Context `{T : Transport}.

Lemma process_team_body_eq fuel sid team_name folder_id st :
  process_team_body fuel sid team_name folder_id st =
    match get_items fuel sid (JNum folder_id) true
            (printed_out st
               [OLit "Processing team "; OLit team_name; OLit "..."]) with
    | (Ok items, st1) =>
        match res_bind (py_iter items)
                (map_res (fun item => getitem item "id")) with
        | Ok items_ids =>
            match get_tag sid team_name st1 with
            | (Ok tag, st2) =>
                match getitem tag "id" with
                | Ok tag_id =>
                    add_tag sid (JList items_ids) (JList [tag_id]) st2
                | Exn e => (Exn e, st2)
                | Fuel => (Fuel, st2)
                end
            | (Exn e, st2) => (Exn e, st2)
            | (Fuel, st2) => (Fuel, st2)
            end
        | Exn e => (Exn e, st1)
        | Fuel => (Fuel, st1)
        end
    | (Exn e, st1) => (Exn e, st1)
    | (Fuel, st1) => (Fuel, st1)
    end.
Proof.
  unfold process_team_body.
  rewrite (bind_ok (print_out _) _ st tt
             (printed_out st [OLit "Processing team "; OLit team_name; OLit "..."])
             eq_refl).
  unfold bind at 1.
  destruct (get_items _ _ _ _ _) as [[items|e|] st1]; try reflexivity.
  unfold bind at 1. unfold lift at 1.
  destruct (py_iter items) as [each|e|]; reflexivity.
Qed.

Lemma process_team_uncaught fuel sid team_name folder_id st e st1 :
  process_team_body fuel sid team_name folder_id st = (Exn e, st1) ->
  is_SynologyPhotoError e = false ->
  process_team fuel sid team_name folder_id st = (Exn e, st1).
Proof.
  intros Hbody Hkind. unfold process_team, try_except.
  now rewrite Hbody, Hkind.
Qed.

Lemma process_teams_app fuel sid before after st :
  process_teams fuel sid (before ++ after) st =
    match process_teams fuel sid before st with
    | (Ok tt, st1) => process_teams fuel sid after st1
    | (Exn e, st1) => (Exn e, st1)
    | (Fuel, st1) => (Fuel, st1)
    end.
Proof.
  unfold process_teams. rewrite for_each_app.
  destruct (for_each before _ _ _) as [[[]| |] st1]; reflexivity.
Qed.

Lemma sent_process_team fuel sid team_name folder_id st :
  sent (snd (process_team fuel sid team_name folder_id st)) =
    sent (snd (process_team_body fuel sid team_name folder_id st)).
Proof.
  unfold process_team, try_except.
  destruct (process_team_body _ _ _ _ _) as [[[]|e|] st1]; try reflexivity.
  destruct (is_SynologyPhotoError e); reflexivity.
Qed.

Lemma listing_not_add_tag r : is_listing r -> ~ is_add_tag r.
Proof. unfold is_listing, is_add_tag. intros -> [=]. Qed.

Lemma no_add_tag_among new :
  Forall is_listing new -> ~ Exists is_add_tag new.
Proof.
  intros Hall Hex. apply List.Exists_exists in Hex.
  destruct Hex as (r & Hin & Hadd).
  rewrite List.Forall_forall in Hall.
  exact (listing_not_add_tag r (Hall r Hin) Hadd).
Qed.

End TaggerMore.

(** X9. An exception that is not the library's error is not caught by
    [process_team]: it ends the loop at that team, the teams after it are
    not processed, and the script ends with exit code 1. *)
Theorem team_crash_ends_batch `{T : Transport} fuel sid before team_name
    folder_id after e st st1 st2 :
  process_teams fuel sid before st = (Ok tt, st1) ->
  process_team_body fuel sid team_name folder_id st1 = (Exn e, st2) ->
  is_SynologyPhotoError e = false ->
  process_team fuel sid team_name folder_id st1 = (Exn e, st2)
  /\ process_teams fuel sid (before ++ (team_name, folder_id) :: after) st =
       (Exn e, st2)
  /\ (forall st_start st_a,
        env_complete (loaded st_start) ->
        authenticate (username (loaded st_start)) (password (loaded st_start))
          (loaded st_start) = (Ok sid, st_a) ->
        st = printed_out st_a
               [OLit "Processing ";
                OVal (JNum (Z.of_nat (length team_folders_id)));
                OLit " teams..."] ->
        team_folders_id = before ++ (team_name, folder_id) :: after ->
        exit_code (fst (main fuel st_start)) = Some 1).
Proof.
  intros Hbefore Hbody Hkind.
  pose proof (process_team_uncaught _ _ _ _ _ _ _ Hbody Hkind) as Hteam.
  assert (Hloop : process_teams fuel sid
                    (before ++ (team_name, folder_id) :: after) st = (Exn e, st2)).
  { rewrite process_teams_app, Hbefore. unfold process_teams.
    cbn [for_each fst snd]. now apply bind_exn. }
  repeat apply conj; try assumption.
  intros st_start st_a Henv Hauth Hst Hteams.
  rewrite (main_exit_after_login fuel st_start sid st_a Henv Hauth).
  rewrite <- Hst, Hteams, Hloop.
  apply exit_code_raised; [now exists e|].
  intros e' [= <-].
  apply (no_exit_process_team fuel sid team_name folder_id st1).
  now rewrite Hteam.
Qed.

Lemma team_crash_ends_batch_witness :
  let st_start := start sloppy_club full_env in
  fst (process_team_body 2 (JStr "s3cr3t") "U20F" 3048
         (printed_out
            (after_request (loaded st_start)
               (auth_request (base_url (loaded st_start))
                  (username (loaded st_start)) (password (loaded st_start))))
            [OLit "Processing "; OVal (JNum 15); OLit " teams..."]))
    = Exn (KeyError "id")
  /\ exit_code (fst (main 2 st_start)) = Some 1.
Proof.
  intros st_start. split; [reflexivity|].
  set (st_a := after_request (loaded st_start)
                 (auth_request (base_url (loaded st_start))
                    (username (loaded st_start)) (password (loaded st_start)))).
  set (st := printed_out st_a
               [OLit "Processing "; OVal (JNum 15); OLit " teams..."]).
  destruct (@team_crash_ends_batch (vendor_mock sloppy_club) 2 (JStr "s3cr3t")
              [] "U20F" 3048 (tl team_folders_id) (KeyError "id") st st
              (snd (process_team_body 2 (JStr "s3cr3t") "U20F" 3048 st)))
    as (_ & _ & Hexit).
  - reflexivity.
  - vm_compute. reflexivity.
  - reflexivity.
  - apply (Hexit st_start st_a).
    + repeat constructor.
    + rewrite authenticate_eq. reflexivity.
    + reflexivity.
    + reflexivity.
Defined.

(** X10. [process_team] tags only what it could look up: if an [add_tag]
    request is among the requests it sends, then the recursive listing
    returned, every listed item had an ['id'], [get_tag] returned a tag
    with an ['id'], and that request is the last and the only one that is
    not a listing. *)
Theorem add_tag_only_after_lookup `{T : Transport} fuel sid team_name
    folder_id st :
  Exists is_add_tag (issued (process_team fuel sid team_name folder_id) st) ->
  exists items st1 items_ids tag st2 tag_id listings,
    get_items fuel sid (JNum folder_id) true
      (printed_out st [OLit "Processing team "; OLit team_name; OLit "..."])
      = (Ok items, st1)
    /\ res_bind (py_iter items) (map_res (fun item => getitem item "id"))
         = Ok items_ids
    /\ get_tag sid team_name st1 = (Ok tag, st2)
    /\ getitem tag "id" = Ok tag_id
    /\ Forall is_listing listings
    /\ issued (process_team fuel sid team_name folder_id) st =
         listings ++
           [add_tag_request (base_url st2) sid (JList items_ids)
              (JList [tag_id])].
Proof.
  assert (Hiss : issued (process_team fuel sid team_name folder_id) st =
                 issued (process_team_body fuel sid team_name folder_id) st)
    by (unfold issued; now rewrite sent_process_team).
  rewrite Hiss. intros Hex.
  pose proof (process_team_body_eq fuel sid team_name folder_id st) as Heq.
  set (st0 := printed_out st
                [OLit "Processing team "; OLit team_name; OLit "..."]) in *.
  destruct (get_items_sends is_listing sid (fun _ _ => eq_refl)
              (fun _ _ => eq_refl) fuel (JNum folder_id) true st0)
    as (new1 & Hnew1 & Hall1).
  change (sent st0) with (sent st) in Hnew1.
  destruct (get_items fuel sid (JNum folder_id) true st0)
    as [[items|e|] st1] eqn:Hget; simpl in Hnew1;
    try (exfalso; rewrite (issued_grows _ st new1) in Hex;
         [exact (no_add_tag_among _ Hall1 Hex) | now rewrite Heq]).
  destruct (res_bind (py_iter items) (map_res (fun item => getitem item "id")))
    as [ids|e|] eqn:Hids;
    try (exfalso; rewrite (issued_grows _ st new1) in Hex;
         [exact (no_add_tag_among _ Hall1 Hex) | now rewrite Heq]).
  pose proof (get_tag_full_eq sid team_name st1) as Htag_eq.
  assert (Hall2 : Forall is_listing
                    (new1 ++ [tags_request (base_url st1) sid])).
  { apply List.Forall_app. split; [exact Hall1|]. now repeat constructor. }
  destruct (get_tag sid team_name st1) as [[tag|e|] st2] eqn:Htag;
    injection Htag_eq as _ Hst2;
    assert (Hsent2 : sent st2 =
                       sent st ++ new1 ++ [tags_request (base_url st1) sid])
      by (rewrite Hst2; simpl; now rewrite Hnew1, <- app_assoc);
    try (exfalso; rewrite (issued_grows _ st _ ltac:(rewrite Heq; exact Hsent2))
           in Hex;
         exact (no_add_tag_among _ Hall2 Hex)).
  destruct (getitem tag "id") as [tag_id|e|] eqn:Hid;
    try (exfalso; rewrite (issued_grows _ st _ ltac:(rewrite Heq; exact Hsent2))
           in Hex;
         exact (no_add_tag_among _ Hall2 Hex)).
  exists items, st1, ids, tag, st2, tag_id,
    (new1 ++ [tags_request (base_url st1) sid]).
  repeat split; try assumption.
  apply issued_grows. rewrite Heq, add_tag_eq. simpl.
  now rewrite Hsent2, <- !app_assoc.
Qed.

Lemma add_tag_only_after_lookup_witness :
  exists items st1 items_ids tag st2 tag_id listings,
    get_items 3 (JStr "s3cr3t") (JNum 3048) true
      (printed_out (start club full_env)
         [OLit "Processing team "; OLit "U20F"; OLit "..."])
      = (Ok items, st1)
    /\ res_bind (py_iter items) (map_res (fun item => getitem item "id"))
         = Ok items_ids
    /\ get_tag (JStr "s3cr3t") "U20F" st1 = (Ok tag, st2)
    /\ getitem tag "id" = Ok tag_id
    /\ Forall is_listing listings
    /\ issued (process_team 3 (JStr "s3cr3t") "U20F" 3048) (start club full_env)
         = listings ++
             [add_tag_request (base_url st2) (JStr "s3cr3t") (JList items_ids)
                (JList [tag_id])].
Proof.
  apply (@add_tag_only_after_lookup (vendor_mock club)).
  apply List.Exists_exists.
  exists (add_tag_request (Some "https://nas.example/photo/") (JStr "s3cr3t")
            (JList [JNum 1; JNum 2; JNum 3; JNum 4; JNum 5]) (JList [JNum 8])).
  split; [|reflexivity].
  vm_compute. do 9 right. left. reflexivity.
Defined.

(** X11. An empty folder is tagged all the same: when the recursive
    listing returns the empty list and the team's tag is found,
    [process_team] goes on to [add_tag], whose one request carries the
    empty list of ids. *)
Theorem empty_folder_still_tagged `{T : Transport} fuel sid team_name
    folder_id st st1 tag st2 tag_id :
  get_items fuel sid (JNum folder_id) true
    (printed_out st [OLit "Processing team "; OLit team_name; OLit "..."])
    = (Ok (JList []), st1) ->
  get_tag sid team_name st1 = (Ok tag, st2) ->
  getitem tag "id" = Ok tag_id ->
  process_team_body fuel sid team_name folder_id st =
    add_tag sid (JList []) (JList [tag_id]) st2
  /\ issued (add_tag sid (JList []) (JList [tag_id])) st2 =
       [add_tag_request (base_url st2) sid (JList []) (JList [tag_id])].
Proof.
  intros Hitems Htag Hid. split.
  - rewrite process_team_body_eq, Hitems. simpl. now rewrite Htag, Hid.
  - apply issued_grows. now rewrite add_tag_eq.
Qed.

Lemma empty_folder_still_tagged_witness :
  let st := start empty_club full_env in
  last (sent (snd (process_team_body 1 (JStr "s3cr3t") "U20F" 3048 st)))
  = Some (add_tag_request (base_url st) (JStr "s3cr3t") (JList [])
            (JList [JNum 8])).
Proof.
  intros st.
  destruct (@empty_folder_still_tagged (vendor_mock empty_club) 1
              (JStr "s3cr3t") "U20F" 3048 st
              (snd (get_items 1 (JStr "s3cr3t") (JNum 3048) true
                      (printed_out st
                         [OLit "Processing team "; OLit "U20F"; OLit "..."])))
              (tag 8 "U20F")
              (snd (get_tag (JStr "s3cr3t") "U20F"
                      (snd (get_items 1 (JStr "s3cr3t") (JNum 3048) true
                              (printed_out st
                                 [OLit "Processing team "; OLit "U20F";
                                  OLit "..."])))))
              (JNum 8))
    as (Hbody & _).
  - vm_compute. reflexivity.
  - vm_compute. reflexivity.
  - reflexivity.
  - rewrite Hbody. vm_compute. reflexivity.
Defined.

(** X12. A login that fails ends [AddTags.py] after its one request: no
    team is announced or processed.  When the login raises the library's
    error the script prints "Fatal error: ..." and exits; when it raises
    anything else (the transport failed, the body was not JSON) the
    exception leaves the script as it is, with no such line. *)
Theorem failed_login_ends_script `{T : Transport} fuel st e st_a :
  env_complete (loaded st) ->
  authenticate (username (loaded st)) (password (loaded st)) (loaded st)
    = (Exn e, st_a) ->
  (is_SynologyPhotoError e = true ->
     main fuel st =
       (Exn (SystemExit 1), printed_err st_a [OLit "Fatal error: "; OExn e]))
  /\ (is_SynologyPhotoError e = false -> main fuel st = (Exn e, st_a))
  /\ sent (snd (main fuel st)) =
       sent st ++
         [auth_request (base_url (loaded st)) (username (loaded st))
            (password (loaded st))]
  /\ stdout (snd (main fuel st)) = stdout st.
Proof.
  intros Henv Hauth. apply missing_env_complete in Henv.
  assert (Hmain : main fuel st =
                    if is_SynologyPhotoError e
                    then (Exn (SystemExit 1),
                          printed_err st_a [OLit "Fatal error: "; OExn e])
                    else (Exn e, st_a)).
  { rewrite main_eq, Henv. unfold try_except.
    rewrite main_body_eq, Hauth.
    destruct (is_SynologyPhotoError e); reflexivity. }
  rewrite authenticate_eq in Hauth. injection Hauth as _ <-.
  repeat apply conj.
  - intros Hkind. now rewrite Hmain, Hkind.
  - intros Hkind. now rewrite Hmain, Hkind.
  - rewrite Hmain. destruct (is_SynologyPhotoError e); reflexivity.
  - rewrite Hmain. destruct (is_SynologyPhotoError e); reflexivity.
Qed.

Lemma failed_login_ends_script_witness :
  let st := @boot refusing_mock tt full_env in
  fst (main 3 st) = Exn (SystemExit 1)
  /\ stderr (snd (main 3 st)) =
       [[OLit "Fatal error: ";
         OExn (SynologyPhotoError
                 [Lit "Authentication failed: "; Val (JNum 119)])]]
  /\ length (sent (snd (main 3 st))) = 1%nat
  /\ fst (main 3 (@boot dead_mock tt full_env)) = Exn RequestException
  /\ stderr (snd (main 3 (@boot dead_mock tt full_env))) = [].
Proof.
  intros st.
  destruct (@failed_login_ends_script refusing_mock 3 st
              (SynologyPhotoError [Lit "Authentication failed: "; Val (JNum 119)])
              (snd (authenticate (username (loaded st)) (password (loaded st))
                      (loaded st))))
    as (Hfatal & _ & Hsent & _).
  { repeat constructor. }
  { rewrite authenticate_eq. reflexivity. }
  destruct (@failed_login_ends_script dead_mock 3 (@boot dead_mock tt full_env)
              RequestException
              (snd (authenticate (username (loaded (@boot dead_mock tt full_env)))
                      (password (loaded (@boot dead_mock tt full_env)))
                      (loaded (@boot dead_mock tt full_env)))))
    as (_ & Hcrash & _).
  { repeat constructor. }
  { rewrite authenticate_eq. reflexivity. }
  repeat apply conj.
  - now rewrite (Hfatal eq_refl).
  - now rewrite (Hfatal eq_refl).
  - now rewrite Hsent.
  - now rewrite (Hcrash eq_refl).
  - now rewrite (Hcrash eq_refl).
Defined.

(** X13. A variable that is set but empty counts as missing: when one of
    the three variables is unset or is the empty string after
    [load_dotenv], [AddTags.py] names it in the one line it prints on
    standard error and exits with 1 without sending a request. *)
Theorem blank_variable_is_missing `{T : Transport} fuel st var :
  In var required_env ->
  environ (loaded st) !! var = None
  \/ environ (loaded st) !! var = Some EmptyString ->
  In var (missing_env (loaded st))
  /\ main fuel st =
       (Exn (SystemExit 1),
        printed_err (loaded st)
          [OLit "Missing required environment variables: ";
           OLit (String.concat ", " (missing_env (loaded st)))])
  /\ sent (snd (main fuel st)) = sent st.
Proof.
  intros Hin Hblank.
  assert (Hmissing : In var (missing_env (loaded st))).
  { unfold missing_env. apply List.filter_In. split; [exact Hin|].
    unfold env_set. destruct Hblank as [-> | ->]; reflexivity. }
  split; [exact Hmissing|].
  rewrite main_eq.
  destruct (missing_env (loaded st)) as [|v rest]; [contradiction|].
  split; reflexivity.
Qed.

Lemma blank_variable_is_missing_witness :
  let st := start club
              [ ("SYNOLOGY_PHOTO_URL", "https://nas.example/photo/");
                ("SYNOLOGY_PHOTO_USERNAME", "coach");
                ("SYNOLOGY_PHOTO_PASSWORD", EmptyString) ] in
  stderr (snd (main 3 st)) =
    [[OLit "Missing required environment variables: ";
      OLit "SYNOLOGY_PHOTO_PASSWORD"]]
  /\ sent (snd (main 3 st)) = [].
Proof.
  intros st.
  destruct (@blank_variable_is_missing (vendor_mock club) 3 st
              "SYNOLOGY_PHOTO_PASSWORD")
    as (_ & Hmain & Hsent).
  - simpl. tauto.
  - right. reflexivity.
  - split; [now rewrite Hmain|exact Hsent].
Defined.

(** X14. "All teams processed successfully" is printed whenever the loop
    over the teams ends, whatever happened to the teams: when the login is
    accepted and the loop returns, the script ends normally and that line
    is the last on standard output. *)
Theorem success_line_when_loop_ends `{T : Transport} fuel st sid st_a st_l :
  env_complete (loaded st) ->
  authenticate (username (loaded st)) (password (loaded st)) (loaded st)
    = (Ok sid, st_a) ->
  process_teams fuel sid team_folders_id
    (printed_out st_a
       [OLit "Processing ";
        OVal (JNum (Z.of_nat (length team_folders_id)));
        OLit " teams..."]) = (Ok tt, st_l) ->
  main fuel st =
    (Ok tt, printed_out st_l [OLit "All teams processed successfully"])
  /\ stdout (snd (main fuel st)) =
       stdout st_l ++ [[OLit "All teams processed successfully"]]
  /\ stderr (snd (main fuel st)) = stderr st_l.
Proof.
  intros Henv Hauth Hloop. apply missing_env_complete in Henv.
  assert (Hmain : main fuel st =
            (Ok tt, printed_out st_l [OLit "All teams processed successfully"])).
  { rewrite main_eq, Henv. unfold try_except.
    rewrite main_body_eq, Hauth. now rewrite (bind_ok _ _ _ _ _ Hloop). }
  rewrite Hmain. repeat split.
Qed.

Lemma success_line_when_loop_ends_witness :
  let st := start club full_env in
  fst (main 3 st) = Ok tt
  /\ last (stdout (snd (main 3 st))) =
       Some [OLit "All teams processed successfully"]
  /\ length (stderr (snd (main 3 st))) = 14%nat.
Proof.
  intros st.
  set (st_a := snd (authenticate (username (loaded st)) (password (loaded st))
                      (loaded st))).
  set (st_p := printed_out st_a
                 [OLit "Processing ";
                  OVal (JNum (Z.of_nat (length team_folders_id)));
                  OLit " teams..."]).
  destruct (@success_line_when_loop_ends (vendor_mock club) 3 st (JStr "s3cr3t")
              st_a (snd (process_teams 3 (JStr "s3cr3t") team_folders_id st_p)))
    as (Hmain & Hout & Herr).
  - repeat constructor.
  - rewrite authenticate_eq. reflexivity.
  - vm_compute. reflexivity.
  - repeat apply conj.
    + now rewrite Hmain.
    + rewrite Hout. vm_compute. reflexivity.
    + rewrite Herr. vm_compute. reflexivity.
Defined.

(** * Further properties of the scripts *)

Section ScriptsMore.
Context `{T : Transport}.

Lemma no_exit_authenticate u p : no_exit (authenticate u p).
Proof.
  eapply no_exit_checked; [apply authenticate_eq|]. apply field2_ordinary.
Qed.

Lemma no_exit_main_body fuel : no_exit (main_body fuel).
Proof.
  unfold main_body.
  apply no_exit_bind; [apply no_exit_ok; intros st; now eexists|]. intros u.
  apply no_exit_bind; [apply no_exit_ok; intros st; now eexists|]. intros p.
  apply no_exit_bind; [apply no_exit_authenticate|]. intros sid.
  apply no_exit_bind; [apply no_exit_print_out|]. intros _.
  apply no_exit_bind; [apply no_exit_process_teams|]. intros _.
  apply no_exit_print_out.
Qed.

Lemma dirs_after_api_info st :
  files st !! output_dir st = None ->
  dirs (snd (UpdateApiInfo.main st)) = dirs st ∪ {[output_dir st]}.
Proof.
  intros Hdir. rewrite (api_info_run st Hdir).
  destruct (get_api_info (prepared st)) as [[data|e|] st1] eqn:Hcall;
    apply get_api_info_disk in Hcall; destruct Hcall as [_ Hdirs].
  - destruct (decide _); simpl; now rewrite Hdirs, dirs_prepared.
  - simpl. now rewrite Hdirs, dirs_prepared.
  - simpl. now rewrite Hdirs, dirs_prepared.
Qed.

Lemma dirs_after_tags st :
  files st !! output_dir st = None ->
  dirs (snd (UpdateTagsList.main st)) = dirs st ∪ {[output_dir st]}.
Proof.
  intros Hdir. rewrite (tags_run st Hdir).
  destruct (authenticate _ _ _) as [[sid|e|] st1] eqn:Hauth;
    apply authenticate_disk in Hauth; destruct Hauth as [_ Hdirs1].
  - destruct (get_all_tags sid st1) as [[tags|e|] st2] eqn:Htags;
      apply get_all_tags_disk in Htags; destruct Htags as [_ Hdirs2].
    + destruct (decide _); simpl; now rewrite Hdirs2, Hdirs1, dirs_prepared.
    + simpl. now rewrite Hdirs2, Hdirs1, dirs_prepared.
    + simpl. now rewrite Hdirs2, Hdirs1, dirs_prepared.
  - simpl. now rewrite Hdirs1, dirs_prepared.
  - simpl. now rewrite Hdirs1, dirs_prepared.
Qed.

End ScriptsMore.

(** X15. The scripts end with 0 or with 1 and no other code: the dump
    scripts always, [AddTags.py] whenever its run ends. *)
Theorem exit_code_is_0_or_1 `{T : Transport} (fuel : nat) (st : proc) :
  (exit_code (fst (UpdateApiInfo.main st)) = Some 0
   \/ exit_code (fst (UpdateApiInfo.main st)) = Some 1)
  /\ (exit_code (fst (UpdateTagsList.main st)) = Some 0
      \/ exit_code (fst (UpdateTagsList.main st)) = Some 1)
  /\ (fst (main fuel st) <> Fuel ->
      exit_code (fst (main fuel st)) = Some 0
      \/ exit_code (fst (main fuel st)) = Some 1).
Proof.
  repeat apply conj.
  - rewrite api_info_main_eq.
    destruct (files st !! output_dir st); [now right|].
    rewrite try_dump by apply api_info_body_ordinary.
    pose proof (api_info_body_ordinary (output_dir st) (prepared st)) as Hord.
    destruct (UpdateApiInfo.body _ _) as [[[]|e|] st1]; simpl in *;
      [now left|now right|contradiction].
  - rewrite tags_main_eq.
    destruct (files st !! output_dir st); [now right|].
    rewrite try_dump by apply tags_body_ordinary.
    pose proof (tags_body_ordinary (output_dir st) (prepared st)) as Hord.
    destruct (UpdateTagsList.body _ _) as [[[]|e|] st1]; simpl in *;
      [now left|now right|contradiction].
  - rewrite main_eq.
    destruct (missing_env (loaded st)); [|intros _; now right].
    unfold try_except.
    pose proof (no_exit_main_body fuel (loaded st)) as Hstays.
    destruct (main_body fuel (loaded st)) as [[[]|e|] st1]; simpl in *.
    + intros _. now left.
    + intros _. right.
      destruct (is_SynologyPhotoError e) eqn:Hkind; [reflexivity|].
      apply exit_code_raised; [now exists e|exact Hstays].
    + intros H. now destruct H.
Qed.

Lemma exit_code_is_0_or_1_witness :
  fst (main 3 (start club full_env)) <> Fuel
  /\ (exit_code (fst (main 3 (start club full_env))) = Some 0
      \/ exit_code (fst (main 3 (start club full_env))) = Some 1).
Proof.
  assert (H : fst (main 3 (start club full_env)) <> Fuel)
    by (vm_compute; discriminate).
  split; [exact H|].
  destruct (@exit_code_is_0_or_1 (vendor_mock club) 3 (start club full_env))
    as (_ & _ & Hmain).
  exact (Hmain H).
Defined.

(** X16. Exit code 0 of a dump script means the dump is on disk: when
    [UpdateApiInfo.py] (resp. [UpdateTagsList.py]) ends with 0,
    [get_api_info] (resp. the login and [get_all_tags]) returned, and the
    files are those before the run with the output file holding the dump,
    indented by 4, of what was returned. *)
Theorem exit_zero_means_dumped `{T : Transport} (st : proc) :
  (exit_code (fst (UpdateApiInfo.main st)) = Some 0 ->
     exists data st1,
       get_api_info (prepared st) = (Ok data, st1)
       /\ files (snd (UpdateApiInfo.main st)) =
            <[path_join (output_dir st) "api_info.json" := JsonDump data 4]>
              (files st))
  /\ (exit_code (fst (UpdateTagsList.main st)) = Some 0 ->
        exists sid st1 tags_info st2,
          authenticate (username (prepared st)) (password (prepared st))
            (prepared st) = (Ok sid, st1)
          /\ get_all_tags sid st1 = (Ok tags_info, st2)
          /\ files (snd (UpdateTagsList.main st)) =
               <[path_join (output_dir st) "tags_info.json" :=
                   JsonDump tags_info 4]> (files st)).
Proof.
  split.
  - destruct (files st !! output_dir st) eqn:Hdir.
    { rewrite api_info_main_eq, Hdir. discriminate. }
    rewrite (api_info_run st Hdir).
    destruct (get_api_info (prepared st)) as [[data|e|] st1] eqn:Hcall;
      try discriminate.
    destruct (decide _); [discriminate|]. intros _.
    exists data, st1. split; [reflexivity|].
    apply get_api_info_disk in Hcall. destruct Hcall as [Hfiles _].
    simpl. now rewrite Hfiles, files_prepared.
  - destruct (files st !! output_dir st) eqn:Hdir.
    { rewrite tags_main_eq, Hdir. discriminate. }
    rewrite (tags_run st Hdir).
    destruct (authenticate _ _ _) as [[sid|e|] st1] eqn:Hauth;
      try discriminate.
    destruct (get_all_tags sid st1) as [[tags|e|] st2] eqn:Htags;
      try discriminate.
    destruct (decide _); [discriminate|]. intros _.
    exists sid, st1, tags, st2. split; [reflexivity|]. split; [exact Htags|].
    apply authenticate_disk in Hauth. destruct Hauth as [Hfiles1 _].
    apply get_all_tags_disk in Htags. destruct Htags as [Hfiles2 _].
    simpl. now rewrite Hfiles2, Hfiles1, files_prepared.
Qed.

Lemma exit_zero_means_dumped_witness :
  let st := @reboot (vendor_mock club) tt full_env in
  exists sid st1 tags_info st2,
    authenticate (username (prepared st)) (password (prepared st))
      (prepared st) = (Ok sid, st1)
    /\ get_all_tags sid st1 = (Ok tags_info, st2)
    /\ files (snd (UpdateTagsList.main st)) =
         <[path_join (output_dir st) "tags_info.json" :=
             JsonDump tags_info 4]> (files st).
Proof.
  intros st.
  destruct (@exit_zero_means_dumped (vendor_mock club) st) as (_ & Htags).
  apply Htags. vm_compute. reflexivity.
Defined.

(** X17. The output directory comes first.  When its path is free or a
    directory already, a dump script makes it before any request, so it
    is there after the run also when the API call failed; when the path
    is taken by a file, [os.makedirs] raises outside the [try]: the script
    ends on that exception without sending a request. *)
Theorem output_directory_first `{T : Transport} (st : proc) :
  (files st !! output_dir st = None ->
     output_dir st ∈ dirs (snd (UpdateApiInfo.main st))
     /\ output_dir st ∈ dirs (snd (UpdateTagsList.main st)))
  /\ (forall c,
        files st !! output_dir st = Some c ->
        UpdateApiInfo.main st = (Exn OSError, loaded st)
        /\ UpdateTagsList.main st = (Exn OSError, loaded st)
        /\ sent (loaded st) = sent st).
Proof.
  split.
  - intros Hdir. rewrite (dirs_after_api_info st Hdir), (dirs_after_tags st Hdir).
    split; set_solver.
  - intros c Hfile. rewrite api_info_main_eq, tags_main_eq, Hfile.
    repeat split.
Qed.

Lemma output_directory_first_witness :
  let st := @boot down_mock tt full_env in
  let blocked :=
    @Proc down_mock tt [] [] [] (list_to_map full_env) ∅ "/srv/photos" ∅
      {[ "/srv/photos/output" := Empty ]} in
  (exit_code (fst (UpdateApiInfo.main st)) = Some 1
   /\ "/srv/photos/output" ∈ dirs (snd (UpdateApiInfo.main st)))
  /\ (fst (UpdateTagsList.main blocked) = Exn OSError
      /\ sent (snd (UpdateTagsList.main blocked)) = []).
Proof.
  intros st blocked. split.
  - split; [reflexivity|].
    destruct (@output_directory_first down_mock st) as (Hmade & _).
    exact (proj1 (Hmade eq_refl)).
  - destruct (@output_directory_first down_mock blocked) as (_ & Hblocked).
    destruct (Hblocked Empty eq_refl) as (_ & Htags & _).
    rewrite Htags. split; reflexivity.
Defined.

Section SessionFacts.
Context `{T : Transport}.

Lemma process_team_sends sid fuel team_name folder_id :
  sends (with_sid sid) (process_team fuel sid team_name folder_id).
Proof.
  intros st. unfold grows. rewrite sent_process_team.
  revert st. change (sends (with_sid sid)
                       (process_team_body fuel sid team_name folder_id)).
  unfold process_team_body.
  apply sends_bind; [now apply sends_pure|]. intros _.
  apply sends_bind; [now apply get_items_sends|]. intros items.
  apply sends_bind; [apply sends_lift|]. intros each.
  apply sends_bind; [apply sends_lift|]. intros ids.
  apply sends_bind.
  { intros st. rewrite get_tag_full_eq. now apply grows_after_request. }
  intros tag.
  apply sends_bind; [apply sends_lift|]. intros tag_id.
  eapply sends_checked; [apply add_tag_eq|]. reflexivity.
Qed.

Lemma process_teams_sends sid fuel teams :
  sends (with_sid sid) (process_teams fuel sid teams).
Proof.
  unfold process_teams. apply sends_for_each. intros [team folder] [].
  apply process_team_sends.
Qed.

End SessionFacts.

(** X18. The scripts pass on the session the login returned: in
    [AddTags.py] every request sent after an accepted login carries the
    [sid] that [authenticate] returned as its [_sid]; in
    [UpdateTagsList.py] the one request after the login is the tag
    listing with that [sid]. *)
Theorem session_of_login_is_passed_on `{T : Transport} (fuel : nat)
    (st : proc) :
  (forall sid st_a,
      env_complete (loaded st) ->
      authenticate (username (loaded st)) (password (loaded st)) (loaded st)
        = (Ok sid, st_a) ->
      exists new,
        sent (snd (main fuel st)) = sent st_a ++ new
        /\ Forall (with_sid sid) new)
  /\ (forall sid st1,
        files st !! output_dir st = None ->
        authenticate (username (prepared st)) (password (prepared st))
          (prepared st) = (Ok sid, st1) ->
        sent (snd (UpdateTagsList.main st)) =
          sent st1 ++ [tags_request (base_url st1) sid]
        /\ with_sid sid (tags_request (base_url st1) sid)).
Proof.
  split.
  - intros sid st_a Henv Hauth. apply missing_env_complete in Henv.
    rewrite main_eq, Henv. unfold try_except.
    rewrite main_body_eq, Hauth.
    set (st_p := printed_out st_a
                   [OLit "Processing ";
                    OVal (JNum (Z.of_nat (length team_folders_id)));
                    OLit " teams..."]).
    destruct (process_teams_sends sid fuel team_folders_id st_p)
      as (new & Hnew & Hall).
    change (sent st_p) with (sent st_a) in Hnew.
    exists new. split; [|exact Hall].
    unfold bind at 1.
    destruct (process_teams fuel sid team_folders_id st_p)
      as [[[]|e|] st_l]; simpl in *; try exact Hnew.
    destruct (is_SynologyPhotoError e); exact Hnew.
  - intros sid st1 Hdir Hauth. split; [|reflexivity].
    rewrite (tags_run st Hdir), Hauth.
    pose proof (get_all_tags_eq sid st1) as Heq.
    destruct (get_all_tags sid st1) as [[tags|e|] st2];
      injection Heq as _ ->; try reflexivity.
    destruct (decide _); reflexivity.
Qed.

Lemma session_of_login_is_passed_on_witness :
  let st := start club full_env in
  exists new,
    sent (snd (main 3 st)) =
      auth_request (base_url st) (JStr "coach") (JStr "hunter2") :: new
    /\ Forall (with_sid (JStr "s3cr3t")) new
    /\ length new = 24%nat.
Proof.
  intros st.
  destruct (@session_of_login_is_passed_on (vendor_mock club) 3 st)
    as (Hmain & _).
  destruct (Hmain (JStr "s3cr3t")
              (after_request (loaded st)
                 (auth_request (base_url (loaded st)) (username (loaded st))
                    (password (loaded st)))))
    as (new & Hsent & Hall).
  - repeat constructor.
  - rewrite authenticate_eq. reflexivity.
  - exists new. split; [exact Hsent|]. split; [exact Hall|].
    apply (f_equal (@length request)) in Hsent.
    rewrite length_app in Hsent.
    change (length (sent (snd (main 3 st)))) with 25%nat in Hsent.
    simpl in Hsent. lia.
Defined.
